(** * Kokoro TTS server: command dispatch, playback fallback and responses

    A shallow embedding of [kokoro-tts-server.py]: the class
    [KokoroTTSServer] with its methods [speak] and [run], the Python string
    operations they use, and the collaborators they call (the Kokoro
    synthesizer, [soundfile], [tempfile], [subprocess], [os.unlink],
    [float]).  Collaborators are an interface ([Collaborators]); what they
    return may change from one call to the next, so each is indexed by the
    number of collaborator calls made so far.

    Not modelled: the [logging] calls (they write to a log file and never
    change control flow), the signal handlers, and a failure of [print]
    itself. *)

From Stdlib Require Import String Ascii ZArith NArith List Bool Lia.
From Stdlib Require Import Floats.PrimFloat.
From stdpp Require Import base option gmap sets strings pretty.
Import ListNotations.

Open Scope string_scope.
Open Scope list_scope.

(* ------------------------------------------------------------------ *)
(** ** Python strings *)

Module PyStr.

(** [str.isspace] on one character.  A character of a Rocq string stands
    for the code point of the same number (0..255); among those Python
    counts as whitespace: TAB..CR, FS..US, SPACE, NEL and NBSP. *)
Definition isspace (c : ascii) : bool :=
  let n := N_of_ascii c in
  ((9 <=? n) && (n <=? 13) || (28 <=? n) && (n <=? 32)
   || (n =? 133) || (n =? 160))%N.

Fixpoint lstrip (s : string) : string :=
  match s with
  | EmptyString => EmptyString
  | String c s' => if isspace c then lstrip s' else s
  end.

Fixpoint rstrip (s : string) : string :=
  match s with
  | EmptyString => EmptyString
  | String c s' =>
      match rstrip s' with
      | EmptyString => if isspace c then EmptyString else String c EmptyString
      | r => String c r
      end
  end.

(** [s.strip()] *)
Definition strip (s : string) : string := rstrip (lstrip s).

(** [s[n:]] *)
Fixpoint slice_from (n : nat) (s : string) : string :=
  match n, s with
  | O, _ => s
  | S _, EmptyString => EmptyString
  | S n', String _ s' => slice_from n' s'
  end.

(** [s.startswith(p)] *)
Definition startswith (s p : string) : bool := String.prefix p s.

(** [not s] for a string: true on the empty string only. *)
Definition is_empty (s : string) : bool :=
  match s with EmptyString => true | String _ _ => false end.

(** Every character of [s] is whitespace. *)
Fixpoint all_space (s : string) : bool :=
  match s with
  | EmptyString => true
  | String c s' => isspace c && all_space s'
  end.

(** What successive [readline()] calls return on the text [s]: each line
    with its newline, the last one possibly without. *)
Fixpoint readlines_from (cur : string -> string) (s : string) : list string :=
  match s with
  | EmptyString =>
      match cur EmptyString with EmptyString => [] | l => [l] end
  | String c s' =>
      if Ascii.eqb c "010"%char
      then cur (String c EmptyString) :: readlines_from (fun t => t) s'
      else readlines_from (fun t => cur (String c t)) s'
  end.

Definition readlines (s : string) : list string := readlines_from (fun t => t) s.

End PyStr.

(* ------------------------------------------------------------------ *)
(** ** Exceptions and results of collaborator calls *)

(** The exception classes the program can meet; all derive from
    [Exception].  [Exception msg] stands for any class not named here. *)
Inductive exn : Type :=
| FileNotFoundError
| TimeoutExpired
| PermissionError
| ValueError
| AttributeError
| Exception (msg : string).

(** [subprocess.CompletedProcess] *)
Record CompletedProcess : Type := mkCompleted {
  returncode : Z;
  stderr : string
}.

(** The objects the server is given.  The first argument of each operation
    is the time: the number of collaborator calls made before this one. *)
Class Collaborators : Type := {
  Audio : Type;
  Style : Type;
  (** [kokoro.voices], a mapping from voice names *)
  kokoro_voices : gmap string Style;
  (** [kokoro.create(text, voice=, speed=)] *)
  kokoro_create : nat -> string -> string -> float -> exn + Audio;
  (** the name chosen by [tempfile.NamedTemporaryFile], before the suffix *)
  tempfile_name : nat -> exn + string;
  (** [sf.write(path, samples, sample_rate)] *)
  sf_write : nat -> string -> Audio -> exn + unit;
  (** [subprocess.run(cmd, capture_output=True, timeout=t)] *)
  subprocess_run : nat -> list string -> Z -> exn + CompletedProcess;
  (** [os.unlink(path)] on a file that exists: done, or the exception it
      raises *)
  os_unlink : nat -> string -> exn + unit;
  (** the builtin [float(s)] *)
  py_float : string -> exn + float
}.

(** [default_voice] *)
Definition default_voice : string := "af_bella".

(** The fields of a [KokoroTTSServer] object. *)
Record KokoroTTSServer : Type := mkServer {
  voice : string;
  speed : float;
  running : bool
}.

(** [KokoroTTSServer.__init__] *)
Definition init_server : KokoroTTSServer :=
  {| voice := default_voice; speed := 1.0%float; running := true |}.

(** One call of [subprocess.run]: the command line and the timeout. *)
Definition Spawn : Type := (list string * Z)%type.

(** One call of [kokoro.create]: text, voice, speed. *)
Definition Synth : Type := (string * string * float)%type.

(** The server object and what it has done to the outside so far. *)
Record Machine : Type := mkMachine {
  self : KokoroTTSServer;
  files : gset string;      (* temporary files on disk *)
  spawned : list Spawn;     (* subprocess.run calls, oldest first *)
  created : list Synth;     (* kokoro.create calls, oldest first *)
  stdout : list string;     (* lines printed, oldest first *)
  now : nat                 (* collaborator calls made so far *)
}.

Definition init_machine : Machine :=
  {| self := init_server; files := ∅; spawned := []; created := [];
     stdout := []; now := 0 |}.

(* ------------------------------------------------------------------ *)
(** ** Computations that change the machine and may raise *)

Definition M (A : Type) : Type := Machine -> (exn + A) * Machine.

Definition ret {A} (a : A) : M A := fun m => (inr a, m).

Definition raise {A} (e : exn) : M A := fun m => (inl e, m).

Definition bind {A B} (c : M A) (k : A -> M B) : M B :=
  fun m =>
    match c m with
    | (inr a, m') => k a m'
    | (inl e, m') => (inl e, m')
    end.

(** [try: c  except ...: h e], where [h e = None] on an exception the
    clause does not name. *)
Definition try_except {A} (c : M A) (h : exn -> option (M A)) : M A :=
  fun m =>
    match c m with
    | (inr a, m') => (inr a, m')
    | (inl e, m') =>
        match h e with
        | Some k => k m'
        | None => (inl e, m')
        end
    end.

Declare Scope py_scope.
Delimit Scope py_scope with py.
Notation "x <- c ;; k" := (bind c (fun x => k))
  (at level 100, c at next level, right associativity) : py_scope.
Notation "c ;; k" := (bind c (fun _ => k))
  (at level 100, right associativity) : py_scope.
Open Scope py_scope.

(** Field updates of the machine. *)
Definition with_self (s : KokoroTTSServer) (m : Machine) : Machine :=
  {| self := s; files := files m; spawned := spawned m; created := created m;
     stdout := stdout m; now := now m |}.

Definition with_files (fs : gset string) (m : Machine) : Machine :=
  {| self := self m; files := fs; spawned := spawned m; created := created m;
     stdout := stdout m; now := now m |}.

Definition tick (m : Machine) : Machine :=
  {| self := self m; files := files m; spawned := spawned m; created := created m;
     stdout := stdout m; now := S (now m) |}.

Definition log_spawn (c : Spawn) (m : Machine) : Machine :=
  {| self := self m; files := files m; spawned := spawned m ++ [c];
     created := created m; stdout := stdout m; now := now m |}.

Definition log_synth (c : Synth) (m : Machine) : Machine :=
  {| self := self m; files := files m; spawned := spawned m;
     created := created m ++ [c]; stdout := stdout m; now := now m |}.

(** [print(line, flush=True)] *)
Definition print (line : string) : M unit :=
  fun m =>
    (inr tt,
     {| self := self m; files := files m; spawned := spawned m;
        created := created m; stdout := stdout m ++ [line]; now := now m |}).

Definition get_self : M KokoroTTSServer := fun m => (inr (self m), m).

Definition set_voice (v : string) : M unit :=
  fun m => (inr tt, with_self {| voice := v; speed := speed (self m);
                                 running := running (self m) |} m).

Definition set_speed (x : float) : M unit :=
  fun m => (inr tt, with_self {| voice := voice (self m); speed := x;
                                 running := running (self m) |} m).

(** What a pass through the body of the [while] loop ends with. *)
Inductive Flow : Type := Next | Break.

Section Server.

Context `{C : Collaborators}.

(** *** Calls of the collaborators *)

Definition create (text v : string) (x : float) : M Audio :=
  fun m => (kokoro_create (now m) text v x, tick (log_synth (text, v, x) m)).

(** [tempfile.NamedTemporaryFile(suffix=".wav", delete=False)]: the file
    exists from here on. *)
Definition NamedTemporaryFile : M string :=
  fun m =>
    match tempfile_name (now m) with
    | inr stem =>
        let p := stem +:+ ".wav" in
        (inr p, tick (with_files ({[ p ]} ∪ files m) m))
    | inl e => (inl e, tick m)
    end.

Definition write (p : string) (samples : Audio) : M unit :=
  fun m => (sf_write (now m) p samples, tick m).

Definition run_process (cmd : list string) (timeout : Z) : M CompletedProcess :=
  fun m => (subprocess_run (now m) cmd timeout, tick (log_spawn (cmd, timeout) m)).

(** [os.unlink(p)]: [FileNotFoundError] when there is no such file;
    otherwise the file is removed, unless the system refuses. *)
Definition unlink (p : string) : M unit :=
  fun m =>
    if bool_decide (p ∈ files m)
    then
      match os_unlink (now m) p with
      | inr _ => (inr tt, tick (with_files (files m ∖ {[ p ]}) m))
      | inl e => (inl e, tick m)
      end
    else (inl FileNotFoundError, m).

Definition parse_float (s : string) : M float :=
  fun m => (py_float s, m).

(** *** [KokoroTTSServer.speak] *)

(** The list [audio_players]: command line and name. *)
Definition audio_players (tmp_path : string) : list (list string * string) :=
  [ (["pw-play"; tmp_path], "pw-play");
    (["paplay"; tmp_path], "paplay");
    (["aplay"; "-q"; tmp_path], "aplay") ].

(** The handler of [except (FileNotFoundError, subprocess.TimeoutExpired)]. *)
Definition player_missing_or_slow {A} (k : M A) (e : exn) : option (M A) :=
  match e with
  | FileNotFoundError | TimeoutExpired => Some k
  | _ => None
  end.

(** The body of the [for] loop for one player: the [try] with its
    [except] clause.  It gives the new value of the variable [result]
    ([None] until some [subprocess.run] has returned) and says whether
    the loop goes on. *)
Definition try_player (cmd : list string) (result : option CompletedProcess)
  : M (option CompletedProcess * Flow) :=
  try_except
    (r <- run_process cmd 10 ;;
     if (returncode r =? 0)%Z
     then ret (Some r, Break)                           (* break *)
     else ret (Some r, Next))
    (player_missing_or_slow (ret (result, Next))).      (* continue *)

(** The [for cmd, name in audio_players] loop. *)
Fixpoint play_loop (players : list (list string * string))
         (result : option CompletedProcess) : M (option CompletedProcess) :=
  match players with
  | [] => ret result
  | (cmd, _) :: rest =>
      step <- try_player cmd result ;;
      match snd step with
      | Break => ret (fst step)
      | Next => play_loop rest (fst step)
      end
  end.

(** The body of the [try] in [speak]. *)
Definition speak_body (text : string) : M bool :=
  s <- get_self ;;
  samples <- create text (voice s) (speed s) ;;
  tmp_path <- NamedTemporaryFile ;;
  write tmp_path samples ;;
  result <- play_loop (audio_players tmp_path) None ;;
  unlink tmp_path ;;
  match result with
  | None => raise AttributeError               (* [None.returncode] *)
  | Some r => if (returncode r =? 0)%Z then ret true else ret false
  end.

(** [speak]: the body under [except Exception: return False]. *)
Definition speak (text : string) : M bool :=
  try_except (speak_body text) (fun _ => Some (ret false)).

(** *** [KokoroTTSServer.run] *)

(** The body of the [try] in the loop, from the result [raw] of
    [sys.stdin.readline()] on. *)
Definition handle (raw : string) : M Flow :=
  if PyStr.is_empty raw then ret Break                      (* EOF *)
  else
    let line := PyStr.strip raw in
    if PyStr.is_empty line then ret Next                    (* continue *)
    else if PyStr.startswith line "SPEAK:" then
      let text := PyStr.strip (PyStr.slice_from 6 line) in
      speak text ;; print "OK" ;; ret Next
    else if PyStr.startswith line "VOICE:" then
      let new_voice := PyStr.strip (PyStr.slice_from 6 line) in
      match kokoro_voices !! new_voice with
      | Some _ => set_voice new_voice ;; print "OK" ;; ret Next
      | None => print "ERROR" ;; ret Next
      end
    else if PyStr.startswith line "SPEED:" then
      x <- parse_float (PyStr.strip (PyStr.slice_from 6 line)) ;;
      set_speed x ;; print "OK" ;; ret Next
    else if String.eqb line "QUIT" then ret Break
    else speak line ;; print "OK" ;; ret Next.

(** One pass through the loop body: [handle] under
    [except Exception: print("ERROR")]. *)
Definition iteration (raw : string) (m : Machine) : Flow * Machine :=
  match handle raw m with
  | (inr f, m') => (f, m')
  | (inl _, m') => (Next, snd (print "ERROR" m'))
  end.

(** The [while self.running] loop.  [stdin] lists what the calls of
    [readline()] return before the end of input; after them [readline()]
    returns the empty string. *)
Fixpoint run (stdin : list string) (m : Machine) : Machine :=
  if running (self m) then
    match stdin with
    | [] => snd (iteration "" m)
    | raw :: rest =>
        match iteration raw m with
        | (Next, m') => run rest m'
        | (Break, m') => m'
        end
    end
  else m.

(** The machines the loop can be in when it is about to read a line. *)
Inductive reachable : Machine -> Prop :=
| reach_init : reachable init_machine
| reach_next (m : Machine) (raw : string) :
    reachable m -> reachable (snd (iteration raw m)).

End Server.

(* ------------------------------------------------------------------ *)
(** ** Concrete collaborators, for examples *)

Module Examples.

(** What a player does when it is asked to play. *)
Inductive Player : Type :=
| Exits (code : Z)
| Missing
| Hangs
| NotExecutable.

Definition outcome (p : Player) : exn + CompletedProcess :=
  match p with
  | Exits c => inr {| returncode := c; stderr := "" |}
  | Missing => inl FileNotFoundError
  | Hangs => inl TimeoutExpired
  | NotExecutable => inl PermissionError
  end.

(** A small [float]: an unsigned decimal numeral with at most one digit
    after the point; everything else is a [ValueError]. *)
Definition digit (c : ascii) : option float :=
  let n := N_of_ascii c in
  if ((48 <=? n) && (n <=? 57))%N
  then nth_error [0; 1; 2; 3; 4; 5; 6; 7; 8; 9]%float (N.to_nat (n - 48))
  else None.

Definition small_float (s : string) : exn + float :=
  match s with
  | String a EmptyString =>
      match digit a with Some x => inr x | None => inl ValueError end
  | String a (String "." (String b EmptyString)) =>
      match digit a, digit b with
      | Some x, Some y => inr (x + y / 10)%float
      | _, _ => inl ValueError
      end
  | _ => inl ValueError
  end.

(** A system with the given voices, a synthesizer that works when [synth]
    is true, and the three players behaving as given. *)
Definition system (voices : list string) (synth : bool)
           (pw pa al : Player) : Collaborators :=
  {| Audio := unit;
     Style := unit;
     kokoro_voices := list_to_map (map (fun v => (v, tt)) voices);
     kokoro_create := fun _ _ _ _ =>
       if synth then inr tt else inl (Exception "synthesis failed");
     tempfile_name := fun t => inr ("/tmp/tmp" +:+ pretty t);
     sf_write := fun _ _ _ => inr tt;
     subprocess_run := fun _ cmd _ =>
       match cmd with
       | "pw-play" :: _ => outcome pw
       | "paplay" :: _ => outcome pa
       | "aplay" :: _ => outcome al
       | _ => inl FileNotFoundError
       end;
     os_unlink := fun _ _ => inr tt;
     py_float := small_float |}.

(** The end of a line. *)
Definition nl : string := String "010"%char EmptyString.

(** Two voices; the synthesizer fails; no player is installed. *)
Definition broken : Collaborators :=
  system ["af_bella"; "am_adam"] false Missing Missing Missing.

(** Two voices; [pw-play] is missing, [paplay] plays. *)
Definition desktop : Collaborators :=
  system ["af_bella"; "am_adam"] true Missing (Exits 0) Missing.

End Examples.

Module MoreExamples.
Import Examples.

(** As [system], with a disk on which [sf.write] fails. *)
Definition full_disk (pw pa al : Player) : Collaborators :=
  {| Audio := unit;
     Style := unit;
     kokoro_voices := list_to_map [("af_bella", tt)];
     kokoro_create := fun _ _ _ _ => inr tt;
     tempfile_name := fun t => inr ("/tmp/tmp" +:+ pretty t);
     sf_write := fun _ _ _ => inl (Exception "No space left on device");
     subprocess_run := fun _ cmd _ =>
       match cmd with
       | "pw-play" :: _ => outcome pw
       | "paplay" :: _ => outcome pa
       | "aplay" :: _ => outcome al
       | _ => inl FileNotFoundError
       end;
     os_unlink := fun _ _ => inr tt;
     py_float := small_float |}.

(** A system on which [paplay] plays and the temporary file cannot be
    removed. *)
Definition sticky_tmp : Collaborators :=
  {| Audio := unit;
     Style := unit;
     kokoro_voices := list_to_map [("af_bella", tt)];
     kokoro_create := fun _ _ _ _ => inr tt;
     tempfile_name := fun t => inr ("/tmp/tmp" +:+ pretty t);
     sf_write := fun _ _ _ => inr tt;
     subprocess_run := fun _ cmd _ =>
       match cmd with
       | "paplay" :: _ => inr {| returncode := 0; stderr := "" |}
       | _ => inl FileNotFoundError
       end;
     os_unlink := fun _ _ => inl PermissionError;
     py_float := small_float |}.

(** One voice; [pw-play] returns 1, [paplay] returns 0. *)
Definition second_player_works : Collaborators :=
  system ["af_bella"] true (Exits 1) (Exits 0) Missing.

(** One voice; [pw-play] returns 1, [paplay] is missing, [aplay] hangs. *)
Definition nothing_plays : Collaborators :=
  system ["af_bella"] true (Exits 1) Missing Hangs.

End MoreExamples.

(* ------------------------------------------------------------------ *)
(** ** Notions used in the statements *)

(** [c] never changes the component [f] of the machine. *)
Definition preserves {B : Type} (f : Machine -> B) {A : Type} (c : M A) : Prop :=
  forall m, f (snd (c m)) = f m.

(** Components that no collaborator call touches: the server object and
    the printed lines. *)
Definition session_and_output (m : Machine) : KokoroTTSServer * list string :=
  (self m, stdout m).

(** The outcomes named in [except (FileNotFoundError, TimeoutExpired)]. *)
Definition missing_or_slow (o : exn + CompletedProcess) : Prop :=
  o = inl FileNotFoundError \/ o = inl TimeoutExpired.

Section Notions.

Context `{C : Collaborators}.

(** Both speaking branches: [self.speak(text); print("OK")]. *)
Definition speak_and_answer (text : string) : M Flow :=
  speak text ;; print "OK" ;; ret Next.

(** The calls the loop makes on [players], started in [m] and ended in
    [m']: the first [k] players, one after the other, each with a timeout
    of 10; it goes on after a player that is missing or slow and after one
    that returns a status other than 0; it stops after one that returns 0
    and after one that raises anything else. *)
Definition loop_calls (players : list (list string * string))
           (m m' : Machine) (k : nat) : Prop :=
  k <= length players
  /\ (0 < length players -> 0 < k)
  /\ spawned m' = spawned m ++ map (fun c => (fst c, 10%Z)) (take k players)
  /\ forall (i : nat) (cmd : list string) (name : string),
      i < k -> players !! i = Some (cmd, name) ->
      (missing_or_slow (subprocess_run (now m + i) cmd 10) ->
         i + 1 < length players -> i + 1 < k)
      /\ (forall r, subprocess_run (now m + i) cmd 10 = inr r ->
            returncode r <> 0%Z -> i + 1 < length players -> i + 1 < k)
      /\ (forall r, subprocess_run (now m + i) cmd 10 = inr r ->
            returncode r = 0%Z -> k = i + 1)
      /\ (forall e, subprocess_run (now m + i) cmd 10 = inl e ->
            e <> FileNotFoundError -> e <> TimeoutExpired -> k = i + 1).

(** Every player either returns or raises one of the two exceptions the
    loop expects. *)
Definition players_missing_or_slow : Prop :=
  forall (t : nat) (cmd : list string) (e : exn),
    subprocess_run t cmd 10 = inl e ->
    e = FileNotFoundError \/ e = TimeoutExpired.

End Notions.

(** A player that did not play: it is missing, it timed out, or it
    returned a status other than 0. *)
Definition player_fails (o : exn + CompletedProcess) : Prop :=
  missing_or_slow o \/ exists r, o = inr r /\ returncode r <> 0%Z.

(** A value of the variable [result] from which [speak] returns [False]. *)
Definition no_success (result : option CompletedProcess) : Prop :=
  match result with
  | None => True
  | Some r => returncode r <> 0%Z
  end.

(** The text that the given [readline()] results came from. *)
Definition join (lines : list string) : string :=
  fold_right String.append "" lines.

Section Branches.

Context `{C : Collaborators}.

(** The machine after [self.speak(text); print("OK")]. *)
Definition spoken (text : string) (m : Machine) : Machine :=
  snd (print "OK" (snd (speak text m))).

(** The branches of the loop body: what a pass on [raw] from [m] ends
    with, by the shape of the line. *)
Inductive pass (raw : string) (m : Machine) : Flow * Machine -> Prop :=
| pass_eof :
    raw = "" -> pass raw m (Break, m)
| pass_blank :
    raw <> "" -> PyStr.strip raw = "" -> pass raw m (Next, m)
| pass_SPEAK :
    PyStr.startswith (PyStr.strip raw) "SPEAK:" = true ->
    pass raw m (Next, spoken (PyStr.strip (PyStr.slice_from 6 (PyStr.strip raw))) m)
| pass_VOICE_known (st : Style) :
    PyStr.startswith (PyStr.strip raw) "VOICE:" = true ->
    kokoro_voices !! PyStr.strip (PyStr.slice_from 6 (PyStr.strip raw)) = Some st ->
    pass raw m
      (Next, snd (print "OK"
                    (snd (set_voice (PyStr.strip (PyStr.slice_from 6 (PyStr.strip raw))) m))))
| pass_VOICE_unknown :
    PyStr.startswith (PyStr.strip raw) "VOICE:" = true ->
    kokoro_voices !! PyStr.strip (PyStr.slice_from 6 (PyStr.strip raw)) = None ->
    pass raw m (Next, snd (print "ERROR" m))
| pass_SPEED_number (x : float) :
    PyStr.startswith (PyStr.strip raw) "SPEED:" = true ->
    py_float (PyStr.strip (PyStr.slice_from 6 (PyStr.strip raw))) = inr x ->
    pass raw m (Next, snd (print "OK" (snd (set_speed x m))))
| pass_SPEED_error (e : exn) :
    PyStr.startswith (PyStr.strip raw) "SPEED:" = true ->
    py_float (PyStr.strip (PyStr.slice_from 6 (PyStr.strip raw))) = inl e ->
    pass raw m (Next, snd (print "ERROR" m))
| pass_QUIT :
    PyStr.strip raw = "QUIT" -> pass raw m (Break, m)
| pass_default :
    PyStr.strip raw <> "" ->
    PyStr.startswith (PyStr.strip raw) "SPEAK:" = false ->
    PyStr.startswith (PyStr.strip raw) "VOICE:" = false ->
    PyStr.startswith (PyStr.strip raw) "SPEED:" = false ->
    PyStr.strip raw <> "QUIT" ->
    pass raw m (Next, spoken (PyStr.strip raw) m).

(** The machine in which [speak] starts to play the file [p]: after the
    calls of [kokoro.create], [NamedTemporaryFile] and [sf.write]. *)
Definition at_playback (text p : string) (m : Machine) : Machine :=
  tick (tick (with_files ({[ p ]} ∪ files m)
                (tick (log_synth (text, voice (self m), speed (self m)) m)))).

(** What [speak] does from there on. *)
Definition play_and_clean (p : string) : M bool :=
  try_except
    (result <- play_loop (audio_players p) None ;;
     unlink p ;;
     match result with
     | None => raise AttributeError
     | Some r => if (returncode r =? 0)%Z then ret true else ret false
     end)
    (fun _ => Some (ret false)).

End Branches.

(* ------------------------------------------------------------------ *)
(** ** Facts on strings *)

Module PyStrFacts.
Import PyStr.

Lemma is_empty_true (s : string) : is_empty s = true <-> s = "".
Proof. destruct s; simpl; split; congruence. Qed.

Lemma is_empty_false (s : string) : is_empty s = false <-> s <> "".
Proof. destruct s; simpl; split; congruence. Qed.

Lemma startswith_cons (a : ascii) (p s : string) :
  startswith s (String a p) = true ->
  exists s', s = String a s' /\ startswith s' p = true.
Proof.
  unfold startswith. destruct s as [|b s]; simpl; [discriminate|].
  destruct (ascii_dec a b) as [->|]; [|discriminate]. eauto.
Qed.

(** Whitespace alone strips to nothing, from either side. *)
Lemma rstrip_all_space (s : string) : all_space s = true -> rstrip s = "".
Proof.
  induction s as [|c s IH]; simpl; [reflexivity|].
  intros [Hc Hs]%andb_prop. rewrite (IH Hs), Hc. reflexivity.
Qed.

Lemma lstrip_all_space (s : string) : all_space s = true -> lstrip s = "".
Proof.
  induction s as [|c s IH]; simpl; [reflexivity|].
  intros [Hc Hs]%andb_prop. rewrite Hc. auto.
Qed.

(** A line that strips to something was not the empty string. *)
Lemma strip_nonempty (s : string) : strip s <> "" -> s <> "".
Proof. intros H ->. apply H. reflexivity. Qed.

(** Trailing whitespace after a text that ends in a non-space. *)
Lemma rstrip_app_space (s ws : string) :
  all_space ws = true -> rstrip (s +:+ ws) = rstrip s.
Proof.
  intros Hws. induction s as [|c s IH]; simpl.
  - apply rstrip_all_space, Hws.
  - rewrite IH. reflexivity.
Qed.

(** The three prefixes exclude one another. *)
Lemma voice_not_speak (s : string) :
  startswith s "VOICE:" = true -> startswith s "SPEAK:" = false.
Proof. intros (s' & -> & _)%startswith_cons. reflexivity. Qed.

Lemma speed_not_speak_voice (s : string) :
  startswith s "SPEED:" = true ->
  startswith s "SPEAK:" = false /\ startswith s "VOICE:" = false.
Proof.
  intros (s1 & -> & (s2 & -> & (s3 & -> & (s4 & -> & _)%startswith_cons
         )%startswith_cons)%startswith_cons)%startswith_cons.
  split; reflexivity.
Qed.

Lemma startswith_nonempty (s : string) (a : ascii) (p : string) :
  startswith s (String a p) = true -> s <> "".
Proof. intros (s' & -> & _)%startswith_cons. discriminate. Qed.

End PyStrFacts.

(* ------------------------------------------------------------------ *)
(** ** What a computation leaves alone *)

Section Frames.

Context `{C : Collaborators}.
Context {B : Type} (f : Machine -> B).

Lemma preserves_ret {A} (a : A) : preserves f (ret a).
Proof. intros m. reflexivity. Qed.

Lemma preserves_raise {A} (e : exn) : preserves f (@raise A e).
Proof. intros m. reflexivity. Qed.

Lemma preserves_bind {A A'} (c : M A) (k : A -> M A') :
  preserves f c -> (forall a, preserves f (k a)) -> preserves f (bind c k).
Proof.
  intros Hc Hk m. unfold bind. specialize (Hc m).
  destruct (c m) as [[e|a] m']; simpl in *; [exact Hc|].
  rewrite Hk. exact Hc.
Qed.

Lemma preserves_try {A} (c : M A) (h : exn -> option (M A)) :
  preserves f c -> (forall e k, h e = Some k -> preserves f k) ->
  preserves f (try_except c h).
Proof.
  intros Hc Hh m. unfold try_except. specialize (Hc m).
  destruct (c m) as [[e|a] m']; simpl in *; [|exact Hc].
  destruct (h e) as [k|] eqn:He; simpl; [|exact Hc].
  rewrite (Hh e k He). exact Hc.
Qed.

Lemma preserves_if {A} (b : bool) (c1 c2 : M A) :
  preserves f c1 -> preserves f c2 -> preserves f (if b then c1 else c2).
Proof. destruct b; auto. Qed.

Lemma preserves_missing_or_slow {A} (k : M A) :
  preserves f k -> forall e k', player_missing_or_slow k e = Some k' -> preserves f k'.
Proof. intros Hk e k' He. destruct e; simpl in He; congruence. Qed.

Lemma preserves_try_player cmd result :
  preserves f (run_process cmd 10) -> preserves f (try_player cmd result).
Proof.
  intros Hrun. unfold try_player. apply preserves_try.
  - apply preserves_bind; [exact Hrun|]. intros r.
    apply preserves_if; apply preserves_ret.
  - apply preserves_missing_or_slow, preserves_ret.
Qed.

(** The playback loop preserves whatever a single [subprocess.run] does. *)
Lemma preserves_play_loop (players : list (list string * string)) :
  (forall cmd t, preserves f (run_process cmd t)) ->
  forall result, preserves f (play_loop players result).
Proof.
  intros Hrun. induction players as [|[cmd name] rest IH]; intros result; simpl.
  - apply preserves_ret.
  - apply preserves_bind; [apply preserves_try_player, Hrun|].
    intros [result' []]; simpl; [apply IH | apply preserves_ret].
Qed.

End Frames.

Create HintDb frames.
#[export] Hint Resolve preserves_ret preserves_raise preserves_if : frames.

(** Goes through a computation along its binds, handlers and branches and
    closes the leaves from the hint database. *)
Ltac frames :=
  repeat first
    [ solve [auto with frames]
    | apply preserves_bind; [|intro]
    | apply preserves_try; [|intros ? ? [= <-]]
    | case_match ].

(* ------------------------------------------------------------------ *)
(** ** The [speak] method *)

Section SpeakFacts.

Context `{C : Collaborators}.

Ltac prim := intros m; cbv beta delta [create NamedTemporaryFile write
  run_process unlink get_self parse_float]; repeat case_match; reflexivity.

Lemma create_quiet text v x : preserves session_and_output (create text v x).
Proof. prim. Qed.

Lemma tempfile_quiet : preserves session_and_output NamedTemporaryFile.
Proof. prim. Qed.

Lemma write_quiet p a : preserves session_and_output (write p a).
Proof. prim. Qed.

Lemma run_process_quiet cmd t : preserves session_and_output (run_process cmd t).
Proof. prim. Qed.

Lemma unlink_quiet p : preserves session_and_output (unlink p).
Proof. prim. Qed.

Lemma get_self_preserves {B} (f : Machine -> B) : preserves f get_self.
Proof. prim. Qed.

Hint Resolve create_quiet tempfile_quiet write_quiet run_process_quiet
  unlink_quiet get_self_preserves : frames.

Lemma play_loop_quiet players result :
  preserves session_and_output (play_loop players result).
Proof. apply preserves_play_loop. auto with frames. Qed.

Hint Resolve play_loop_quiet : frames.

Lemma speak_body_quiet text : preserves session_and_output (speak_body text).
Proof.
  unfold speak_body. frames.
Qed.

(** [speak] changes neither the session nor the output. *)
Lemma speak_quiet text : preserves session_and_output (speak text).
Proof.
  unfold speak. apply preserves_try; [apply speak_body_quiet|].
  intros e k [= <-]. apply preserves_ret.
Qed.

Lemma speak_self text m : self (snd (speak text m)) = self m.
Proof. exact (f_equal fst (speak_quiet text m)). Qed.

Lemma speak_stdout text m : stdout (snd (speak text m)) = stdout m.
Proof. exact (f_equal snd (speak_quiet text m)). Qed.

(** [speak] returns a boolean whatever happens inside: no exception
    leaves it. *)
Lemma speak_returns text m : exists b : bool, fst (speak text m) = inr b.
Proof.
  unfold speak, try_except.
  destruct (speak_body text m) as [[e|b] m']; simpl; eauto.
Qed.

(** The calls of [kokoro.create]: [speak] makes exactly one, with the
    text it was given and the voice and speed of the session. *)
Lemma create_logs text v x m :
  created (snd (create text v x m)) = created m ++ [(text, v, x)].
Proof. reflexivity. Qed.

Lemma tempfile_created : preserves created NamedTemporaryFile.
Proof. prim. Qed.

Lemma write_created p a : preserves created (write p a).
Proof. prim. Qed.

Lemma run_process_created cmd t : preserves created (run_process cmd t).
Proof. prim. Qed.

Lemma unlink_created p : preserves created (unlink p).
Proof. prim. Qed.

Hint Resolve tempfile_created write_created run_process_created
  unlink_created : frames.

Lemma play_loop_created players result :
  preserves created (play_loop players result).
Proof. apply preserves_play_loop. auto with frames. Qed.

Hint Resolve play_loop_created : frames.

Lemma speak_created text m :
  created (snd (speak text m))
  = created m ++ [(text, voice (self m), speed (self m))].
Proof.
  unfold speak, try_except, speak_body.
  unfold bind at 1. unfold get_self at 1. cbv iota beta.
  unfold bind at 1.
  pose proof (create_logs text (voice (self m)) (speed (self m)) m) as Hlog.
  destruct (create text (voice (self m)) (speed (self m)) m) as [[e|a] m1];
    simpl in Hlog; [exact Hlog|].
  rewrite <- Hlog.
  match goal with
  | |- created (snd (match ?c m1 with _ => _ end)) = _ =>
      assert (Hk : preserves created c)
        by frames;
      specialize (Hk m1); destruct (c m1) as [[e|b] m2]; exact Hk
  end.
Qed.

End SpeakFacts.

(* ------------------------------------------------------------------ *)
(** ** The dispatcher: one pass through the loop body *)

Section Dispatch.

Context `{C : Collaborators}.
Import PyStr PyStrFacts.

Lemma speak_and_answer_spec text m :
  exists m',
    speak_and_answer text m = (inr Next, m')
    /\ self m' = self m
    /\ stdout m' = stdout m ++ ["OK"]
    /\ created m' = created m ++ [(text, voice (self m), speed (self m))].
Proof.
  unfold speak_and_answer, bind.
  destruct (speak_returns text m) as [b Hb].
  pose proof (speak_self text m) as Hs.
  pose proof (speak_stdout text m) as Ho.
  pose proof (speak_created text m) as Hc.
  destruct (speak text m) as [r m1]; simpl in *; subst r.
  eexists; split; [reflexivity|]. simpl.
  rewrite Hs, Ho, Hc. auto.
Qed.

(** Which branch of [handle] a line takes. *)
Lemma handle_empty raw :
  raw <> "" -> strip raw = "" -> handle raw = ret Next.
Proof.
  intros Hraw Hline. unfold handle.
  apply is_empty_false in Hraw. rewrite Hraw, Hline. reflexivity.
Qed.

Lemma handle_SPEAK raw :
  startswith (strip raw) "SPEAK:" = true ->
  handle raw = speak_and_answer (strip (slice_from 6 (strip raw))).
Proof.
  intros Hp. unfold handle.
  pose proof (startswith_nonempty _ _ _ Hp) as Hline.
  pose proof (strip_nonempty _ Hline) as Hraw.
  apply is_empty_false in Hraw, Hline.
  rewrite Hraw, Hline, Hp. reflexivity.
Qed.

Lemma handle_VOICE raw :
  startswith (strip raw) "VOICE:" = true ->
  handle raw =
    let new_voice := strip (slice_from 6 (strip raw)) in
    match kokoro_voices !! new_voice with
    | Some _ => set_voice new_voice ;; print "OK" ;; ret Next
    | None => print "ERROR" ;; ret Next
    end.
Proof.
  intros Hp. unfold handle.
  pose proof (startswith_nonempty _ _ _ Hp) as Hline.
  pose proof (strip_nonempty _ Hline) as Hraw.
  apply is_empty_false in Hraw, Hline.
  rewrite Hraw, Hline, (voice_not_speak _ Hp), Hp. reflexivity.
Qed.

Lemma handle_SPEED raw :
  startswith (strip raw) "SPEED:" = true ->
  handle raw =
    (x <- parse_float (strip (slice_from 6 (strip raw))) ;;
     set_speed x ;; print "OK" ;; ret Next).
Proof.
  intros Hp. unfold handle.
  pose proof (startswith_nonempty _ _ _ Hp) as Hline.
  pose proof (strip_nonempty _ Hline) as Hraw.
  apply is_empty_false in Hraw, Hline.
  destruct (speed_not_speak_voice _ Hp) as [H1 H2].
  rewrite Hraw, Hline, H1, H2, Hp. reflexivity.
Qed.

Lemma handle_QUIT raw : strip raw = "QUIT" -> handle raw = ret Break.
Proof.
  intros Hq. unfold handle.
  assert (Hraw : raw <> "") by (apply strip_nonempty; rewrite Hq; discriminate).
  apply is_empty_false in Hraw. rewrite Hraw, Hq. reflexivity.
Qed.

Lemma handle_default raw :
  strip raw <> "" ->
  startswith (strip raw) "SPEAK:" = false ->
  startswith (strip raw) "VOICE:" = false ->
  startswith (strip raw) "SPEED:" = false ->
  strip raw <> "QUIT" ->
  handle raw = speak_and_answer (strip raw).
Proof.
  intros Hline H1 H2 H3 Hq. unfold handle.
  pose proof (strip_nonempty _ Hline) as Hraw.
  apply is_empty_false in Hraw, Hline.
  apply String.eqb_neq in Hq.
  rewrite Hraw, Hline, H1, H2, H3, Hq. reflexivity.
Qed.

(** The loop ends on the first [QUIT] and runs on a prefix of the input
    as on the whole input up to there. *)
Lemma iteration_QUIT raw m : strip raw = "QUIT" -> iteration raw m = (Break, m).
Proof. intros Hq. unfold iteration. rewrite (handle_QUIT _ Hq). reflexivity. Qed.

Lemma run_nil m : run [] m = m.
Proof. simpl. destruct (running (self m)); reflexivity. Qed.

End Dispatch.

(* ------------------------------------------------------------------ *)
(** ** The response contract of the dispatcher *)

Section Responses.

Context `{C : Collaborators}.
Import PyStr PyStrFacts.

(** C1.  A line that starts with [SPEAK:], and every non-empty line that
    reaches the default branch, is answered with [OK], and the loop goes
    on: whatever the synthesizer, the temporary file and the players do
    inside [speak] (the collaborators are arbitrary), no [ERROR] is
    printed. *)
Theorem speak_lines_answer_OK (raw : string) (m : Machine) :
  startswith (strip raw) "SPEAK:" = true
  \/ (strip raw <> ""
      /\ startswith (strip raw) "VOICE:" = false
      /\ startswith (strip raw) "SPEED:" = false
      /\ strip raw <> "QUIT") ->
  fst (iteration raw m) = Next
  /\ stdout (snd (iteration raw m)) = stdout m ++ ["OK"].
Proof.
  intros H. unfold iteration.
  assert (Hh : exists text, handle raw = speak_and_answer text).
  { destruct H as [Hp | (Hline & H2 & H3 & Hq)].
    - eexists. apply handle_SPEAK, Hp.
    - destruct (startswith (strip raw) "SPEAK:") eqn:H1.
      + eexists. apply handle_SPEAK, H1.
      + eexists. apply handle_default; assumption. }
  destruct Hh as [text ->].
  destruct (speak_and_answer_spec text m) as (m' & -> & _ & Ho & _).
  split; [reflexivity | exact Ho].
Qed.

(** C2.  [VOICE:<name>]: a name among the keys of [kokoro.voices]
    becomes the session voice and the answer is [OK]; any other name
    leaves the session as it was and the answer is [ERROR]. *)
Theorem voice_line_sets_known_voice (raw : string) (m : Machine) :
  startswith (strip raw) "VOICE:" = true ->
  let name := strip (slice_from 6 (strip raw)) in
  let m' := snd (iteration raw m) in
  (name ∈ dom kokoro_voices ->
     voice (self m') = name /\ stdout m' = stdout m ++ ["OK"])
  /\ (name ∉ dom kokoro_voices ->
     voice (self m') = voice (self m) /\ self m' = self m
     /\ stdout m' = stdout m ++ ["ERROR"]).
Proof.
  intros Hp name m'. subst m'. unfold iteration.
  rewrite (handle_VOICE _ Hp). cbv zeta. fold name.
  split; intros Hname.
  - apply elem_of_dom in Hname as [st Hst]. rewrite Hst. split; reflexivity.
  - apply not_elem_of_dom in Hname. rewrite Hname. repeat split; reflexivity.
Qed.

(** C3.  [SPEED:<token>]: when [float] returns a value for the trimmed
    token, whatever value it is, the session speed becomes that value and
    the answer is [OK]; when [float] raises, the session is as before and
    the answer is [ERROR]. *)
Theorem speed_line_sets_parsed_speed (raw : string) (m : Machine) :
  startswith (strip raw) "SPEED:" = true ->
  let token := strip (slice_from 6 (strip raw)) in
  let m' := snd (iteration raw m) in
  (forall x : float, py_float token = inr x ->
     speed (self m') = x /\ stdout m' = stdout m ++ ["OK"])
  /\ (forall e : exn, py_float token = inl e ->
     speed (self m') = speed (self m) /\ self m' = self m
     /\ stdout m' = stdout m ++ ["ERROR"]).
Proof.
  intros Hp token m'. subst m'. unfold iteration.
  rewrite (handle_SPEED _ Hp). fold token.
  unfold bind at 1. unfold parse_float.
  split; [intros x Hx | intros e He].
  - rewrite Hx. split; reflexivity.
  - rewrite He. repeat split; reflexivity.
Qed.

(** C8.  Dispatch looks for the exact prefixes only.  A non-empty line
    that starts with none of [SPEAK:], [VOICE:], [SPEED:] and is not
    [QUIT] is spoken as it is and answered with [OK]; so is
    [speak:hello], whose text [speak:hello] goes to the synthesizer with
    the prefix still on it. *)
Theorem dispatch_is_case_sensitive :
  (forall (raw : string) (m : Machine),
      strip raw <> "" ->
      startswith (strip raw) "SPEAK:" = false ->
      startswith (strip raw) "VOICE:" = false ->
      startswith (strip raw) "SPEED:" = false ->
      strip raw <> "QUIT" ->
      let m' := snd (iteration raw m) in
      created m' = created m ++ [(strip raw, voice (self m), speed (self m))]
      /\ stdout m' = stdout m ++ ["OK"]
      /\ self m' = self m)
  /\ (forall m : Machine,
      let m' := snd (iteration "speak:hello" m) in
      created m' = created m ++ [("speak:hello", voice (self m), speed (self m))]
      /\ stdout m' = stdout m ++ ["OK"]
      /\ self m' = self m).
Proof.
  assert (Hgen : forall (raw : string) (m : Machine),
      strip raw <> "" ->
      startswith (strip raw) "SPEAK:" = false ->
      startswith (strip raw) "VOICE:" = false ->
      startswith (strip raw) "SPEED:" = false ->
      strip raw <> "QUIT" ->
      let m' := snd (iteration raw m) in
      created m' = created m ++ [(strip raw, voice (self m), speed (self m))]
      /\ stdout m' = stdout m ++ ["OK"]
      /\ self m' = self m).
  { intros raw m Hline H1 H2 H3 Hq m'. subst m'. unfold iteration.
    rewrite (handle_default raw Hline H1 H2 H3 Hq).
    destruct (speak_and_answer_spec (strip raw) m) as (m' & -> & Hs & Ho & Hc).
    simpl. auto. }
  split; [exact Hgen|].
  intros m. apply (Hgen "speak:hello" m); first [reflexivity | discriminate].
Qed.

(** C9.  A line that is empty once trimmed prints nothing and leaves the
    machine as it was: voice, speed and running flag keep their values;
    unless it is the end of input, the loop goes on. *)
Theorem blank_line_is_ignored (raw : string) (m : Machine) :
  strip raw = "" ->
  let m' := snd (iteration raw m) in
  stdout m' = stdout m
  /\ voice (self m') = voice (self m)
  /\ speed (self m') = speed (self m)
  /\ running (self m') = running (self m)
  /\ m' = m
  /\ (raw <> "" -> fst (iteration raw m) = Next).
Proof.
  intros Hline m'. subst m'. unfold iteration.
  destruct (string_dec raw "") as [-> | Hraw].
  - simpl. repeat split; try reflexivity. congruence.
  - rewrite (handle_empty raw Hraw Hline). simpl. repeat split; reflexivity.
Qed.

(** C10.  [SPEAK:] followed by nothing but whitespace is not dropped as
    an empty line: the synthesizer is called once, on the empty text,
    and exactly one line, [OK], is added to the output. *)
Theorem bare_SPEAK_speaks_empty_text (ws : string) (m : Machine) :
  all_space ws = true ->
  let m' := snd (iteration ("SPEAK:" +:+ ws) m) in
  fst (iteration ("SPEAK:" +:+ ws) m) = Next
  /\ created m' = created m ++ [("", voice (self m), speed (self m))]
  /\ stdout m' = stdout m ++ ["OK"].
Proof.
  intros Hws m'. subst m'.
  assert (Hline : strip ("SPEAK:" +:+ ws) = "SPEAK:").
  { unfold strip. change (lstrip ("SPEAK:" +:+ ws)) with ("SPEAK:" +:+ ws).
    rewrite (rstrip_app_space _ _ Hws). reflexivity. }
  unfold iteration. rewrite handle_SPEAK by (rewrite Hline; reflexivity).
  rewrite Hline. change (strip (slice_from 6 "SPEAK:")) with "".
  destruct (speak_and_answer_spec "" m) as (m' & -> & _ & Ho & Hc).
  simpl. auto.
Qed.

End Responses.

(* ------------------------------------------------------------------ *)
(** ** The loop: [QUIT] and the session voice *)

Section Loop.

Context `{C : Collaborators}.
Import PyStr PyStrFacts.

(** C6.  On a line whose trimmed content is [QUIT] the loop is left with
    nothing printed and nothing changed, and the run on an input that
    holds such a line is the run on the lines before it: what follows the
    line is never read. *)
Theorem QUIT_ends_the_loop (q : string) :
  strip q = "QUIT" ->
  forall m : Machine,
    iteration q m = (Break, m)
    /\ forall pre post : list string, run (pre ++ q :: post) m = run pre m.
Proof.
  intros Hq m. split; [apply iteration_QUIT, Hq|].
  intros pre post. revert m.
  induction pre as [|a pre IH]; intros m.
  - rewrite run_nil. simpl. rewrite (iteration_QUIT _ _ Hq).
    destruct (running (self m)); reflexivity.
  - simpl. destruct (running (self m)); [|reflexivity].
    destruct (iteration a m) as [[|] m1]; [apply IH | reflexivity].
Qed.

(** One pass through the loop body keeps the session voice or sets it to
    a key of [kokoro.voices]. *)
Lemma iteration_voice (raw : string) (m : Machine) :
  voice (self (snd (iteration raw m))) = voice (self m)
  \/ voice (self (snd (iteration raw m))) ∈ dom kokoro_voices.
Proof.
  destruct (string_dec raw "") as [-> | Hraw]; [left; reflexivity|].
  destruct (string_dec (strip raw) "") as [Hline | Hline].
  { unfold iteration. rewrite (handle_empty _ Hraw Hline). left; reflexivity. }
  destruct (startswith (strip raw) "SPEAK:") eqn:H1.
  { unfold iteration. rewrite (handle_SPEAK _ H1).
    destruct (speak_and_answer_spec (strip (slice_from 6 (strip raw))) m)
      as (m' & -> & Hs & _). left. simpl. rewrite Hs. reflexivity. }
  destruct (startswith (strip raw) "VOICE:") eqn:H2.
  { unfold iteration. rewrite (handle_VOICE _ H2). cbv zeta.
    destruct (kokoro_voices !! strip (slice_from 6 (strip raw))) as [st|] eqn:Hv.
    - right. simpl. apply elem_of_dom. eauto.
    - left. reflexivity. }
  destruct (startswith (strip raw) "SPEED:") eqn:H3.
  { unfold iteration. rewrite (handle_SPEED _ H3).
    unfold bind at 1. unfold parse_float.
    destruct (py_float _); left; reflexivity. }
  destruct (string_dec (strip raw) "QUIT") as [Hq | Hq].
  { rewrite (iteration_QUIT _ _ Hq). left; reflexivity. }
  unfold iteration. rewrite (handle_default _ Hline H1 H2 H3 Hq).
  destruct (speak_and_answer_spec (strip raw) m) as (m' & -> & Hs & _).
  left. simpl. rewrite Hs. reflexivity.
Qed.

(** C5, as the code has it.  In every machine the loop can reach, the
    session voice is the default voice, which [__init__] assigns without
    looking it up, or a key of [kokoro.voices]. *)
Theorem session_voice_default_or_known (m : Machine) :
  reachable m ->
  voice (self m) = default_voice \/ voice (self m) ∈ dom kokoro_voices.
Proof.
  induction 1 as [|m raw Hm IH].
  - left. reflexivity.
  - destruct (iteration_voice raw m) as [-> | Hk]; [exact IH | right; exact Hk].
Qed.

End Loop.

(** C5, as stated, fails: with voices that do not include [af_bella], the
    machine the server starts in is reachable and has a session voice that
    is no key of [kokoro.voices]. *)
Lemma session_voice_known_fails :
  let C := Examples.system ["am_adam"] true (Examples.Exits 0)
             Examples.Missing Examples.Missing in
  reachable init_machine
  /\ voice (self init_machine) = "af_bella"
  /\ voice (self init_machine) ∉ dom kokoro_voices.
Proof.
  cbv zeta. split; [apply reach_init|]. split; [reflexivity|].
  intros [st Hst]%elem_of_dom. vm_compute in Hst. discriminate.
Qed.

(* ------------------------------------------------------------------ *)
(** ** Playback: the order of the players and the temporary file *)

Section Playback.

Context `{C : Collaborators}.

Lemma run_process_spec cmd t m :
  run_process cmd t m
  = (subprocess_run (now m) cmd t, tick (log_spawn (cmd, t) m)).
Proof. reflexivity. Qed.

(** The loop stops after its first player. *)
Lemma loop_calls_stop cmd0 name0 rest m m' :
  spawned m' = spawned m ++ [(cmd0, 10%Z)] ->
  ~ missing_or_slow (subprocess_run (now m) cmd0 10) ->
  (forall r, subprocess_run (now m) cmd0 10 = inr r -> returncode r = 0%Z) ->
  loop_calls ((cmd0, name0) :: rest) m m' 1.
Proof.
  intros Hsp Hnot Hzero. unfold loop_calls. simpl.
  split; [lia|]. split; [lia|]. split; [exact Hsp|].
  intros i cmd name Hi Hl.
  assert (i = 0) as -> by lia. simpl in Hl. injection Hl as <- <-.
  rewrite Nat.add_0_r. split; [|split; [|split]].
  - intros Hms. contradiction.
  - intros r Hr Hnz. exfalso. exact (Hnz (Hzero r Hr)).
  - reflexivity.
  - reflexivity.
Qed.

(** The loop goes on with the players after the first. *)
Lemma loop_calls_go cmd0 name0 rest m m' k :
  (forall r, subprocess_run (now m) cmd0 10 = inr r -> returncode r <> 0%Z) ->
  (forall e, subprocess_run (now m) cmd0 10 = inl e ->
     e = FileNotFoundError \/ e = TimeoutExpired) ->
  loop_calls rest (tick (log_spawn (cmd0, 10%Z) m)) m' k ->
  loop_calls ((cmd0, name0) :: rest) m m' (S k).
Proof.
  intros Hnz Hexn (Hk & Hpos & Hsp & Hcalls). unfold loop_calls. simpl in *.
  split; [lia|]. split; [lia|]. split.
  { rewrite Hsp, <- app_assoc. reflexivity. }
  intros i cmd name Hi Hl. destruct i as [|i]; simpl in Hl.
  - injection Hl as <- <-. rewrite Nat.add_0_r. split; [|split; [|split]].
    + intros _ Hlen. assert (0 < k) by (apply Hpos; lia). lia.
    + intros r _ _ Hlen. assert (0 < k) by (apply Hpos; lia). lia.
    + intros r Hr Hz. exfalso. exact (Hnz r Hr Hz).
    + intros e He H1 H2. exfalso. destruct (Hexn e He); contradiction.
  - destruct (Hcalls i cmd name ltac:(lia) Hl) as (Hskip & Hnext & Hstop & Habort).
    replace (now m + S i) with (S (now m + i)) by lia. split; [|split; [|split]].
    + intros Hms Hlen. specialize (Hskip Hms). lia.
    + intros r Hr Hnzr Hlen. specialize (Hnext r Hr Hnzr). lia.
    + intros r Hr Hz. rewrite (Hstop r Hr Hz). lia.
    + intros e He H1 H2. rewrite (Habort e He H1 H2). lia.
Qed.

Lemma play_loop_calls (players : list (list string * string)) :
  forall (result : option CompletedProcess) (m : Machine),
  exists k : nat, loop_calls players m (snd (play_loop players result m)) k.
Proof.
  induction players as [|[cmd0 name0] rest IH]; intros result m.
  { exists 0. unfold loop_calls. simpl. rewrite app_nil_r.
    split; [lia|]. split; [lia|]. split; [reflexivity|]. intros; lia. }
  simpl play_loop. unfold bind at 1.
  unfold try_player, try_except, bind. rewrite run_process_spec.
  destruct (subprocess_run (now m) cmd0 10) as [e|r] eqn:Ho.
  - destruct e; simpl;
      first
        [ destruct (IH result (tick (log_spawn (cmd0, 10%Z) m))) as [k Hk];
          exists (S k); apply loop_calls_go;
          [ rewrite Ho; discriminate
          | rewrite Ho; intros e' [= <-]; auto
          | exact Hk ]
        | exists 1; apply loop_calls_stop;
          [ reflexivity
          | rewrite Ho; intros [?|?]; discriminate
          | rewrite Ho; discriminate ] ].
  - destruct (returncode r =? 0)%Z eqn:Hz; simpl.
    + exists 1. apply loop_calls_stop;
        [ reflexivity
        | rewrite Ho; intros [?|?]; discriminate
        | rewrite Ho; intros r' [= <-]; apply Z.eqb_eq, Hz ].
    + destruct (IH (Some r) (tick (log_spawn (cmd0, 10%Z) m))) as [k Hk].
      exists (S k). apply loop_calls_go; [| |exact Hk].
      * rewrite Ho. intros r' [= <-]. apply Z.eqb_neq, Hz.
      * rewrite Ho. discriminate.
Qed.


End Playback.

(* ------------------------------------------------------------------ *)
(** ** The temporary file *)

Section TemporaryFile.

Context `{C : Collaborators}.

Ltac prim := intros m; cbv beta delta [create NamedTemporaryFile write
  run_process unlink get_self parse_float]; repeat case_match; reflexivity.

Lemma run_process_files cmd t : preserves files (run_process cmd t).
Proof. prim. Qed.

Lemma play_loop_files players result : preserves files (play_loop players result).
Proof. apply preserves_play_loop. intros; apply run_process_files. Qed.

(** With such players the loop raises nothing. *)
Lemma play_loop_returns players :
  players_missing_or_slow ->
  forall result m, exists r, fst (play_loop players result m) = inr r.
Proof.
  intros Hp. induction players as [|[cmd name] rest IH]; intros result m.
  - exists result. reflexivity.
  - simpl play_loop. unfold bind at 1.
    unfold try_player, try_except, bind. rewrite run_process_spec.
    destruct (subprocess_run (now m) cmd 10) as [e|r] eqn:Ho.
    + destruct (Hp _ _ _ Ho) as [-> | ->]; simpl; apply IH.
    + destruct (returncode r =? 0)%Z; simpl; [eauto | apply IH].
Qed.

(** A result of the loop other than the one it started with was returned
    by a player. *)
Lemma play_loop_result players :
  forall result m r,
    fst (play_loop players result m) = inr (Some r) ->
    result = Some r
    \/ exists (t : nat) (cmd : list string), subprocess_run t cmd 10 = inr r.
Proof.
  induction players as [|[cmd name] rest IH]; intros result m r.
  - simpl. intros [= ->]. left; reflexivity.
  - simpl play_loop. unfold bind at 1.
    unfold try_player, try_except, bind. rewrite run_process_spec.
    destruct (subprocess_run (now m) cmd 10) as [e|r0] eqn:Ho.
    + destruct e; simpl; try discriminate; apply IH.
    + destruct (returncode r0 =? 0)%Z; simpl.
      * intros [= ->]. right; eauto.
      * intros Hr. apply IH in Hr as [[= ->] | Hr]; [right; eauto | right; exact Hr].
Qed.

#[local] Arguments play_loop : simpl never.

(** The second half of C4 holds of the code: [speak] returns [True] only
    when some player has returned status 0. *)
Lemma speak_true_has_zero_exit text m :
  fst (speak text m) = inr true ->
  exists (t : nat) (cmd : list string) (r : CompletedProcess),
    subprocess_run t cmd 10 = inr r /\ returncode r = 0%Z.
Proof.
  unfold speak, try_except, speak_body.
  unfold bind at 1. unfold get_self at 1. cbv iota beta.
  unfold bind at 1.
  destruct (create _ _ _ m) as [[e|a] m1]; simpl; [discriminate|].
  unfold bind at 1.
  destruct (NamedTemporaryFile m1) as [[e|p] m2]; simpl; [discriminate|].
  unfold bind at 1.
  destruct (write p a m2) as [[e|[]] m3]; simpl; [discriminate|].
  unfold bind at 1.
  pose proof (play_loop_result (audio_players p) None m3) as Hres.
  destruct (play_loop (audio_players p) None m3) as [[e|res] m4];
    simpl; [discriminate|].
  unfold bind at 1.
  destruct (unlink p m4) as [[e|[]] m5]; simpl; [discriminate|].
  destruct res as [r|]; simpl; [|discriminate].
  destruct (returncode r =? 0)%Z eqn:Hz; simpl; [|discriminate].
  intros _. destruct (Hres r eq_refl) as [[=] | (t & cmd & Hr)].
  exists t, cmd, r. split; [exact Hr | apply Z.eqb_eq, Hz].
Qed.

(** The first half of C4 holds when the synthesizer and [sf.write]
    succeed, every player returns, is missing or times out, and
    [os.unlink] does not raise: the temporary file of the call is gone
    when [speak] returns. *)
Lemma speak_deletes_tmp_file text m a stem :
  players_missing_or_slow ->
  kokoro_create (now m) text (voice (self m)) (speed (self m)) = inr a ->
  tempfile_name (S (now m)) = inr stem ->
  sf_write (S (S (now m))) (stem +:+ ".wav") a = inr tt ->
  (forall t, os_unlink t (stem +:+ ".wav") = inr tt) ->
  files (snd (speak text m)) = files m ∖ {[ stem +:+ ".wav" ]}.
Proof.
  intros Hp Ha Hstem Hw Hu.
  unfold speak, try_except, speak_body.
  unfold bind at 1. unfold get_self at 1. cbv iota beta.
  unfold bind at 1. unfold create at 1. rewrite Ha. cbv iota beta.
  unfold bind at 1. unfold NamedTemporaryFile at 1.
  simpl now. rewrite Hstem. cbv iota beta zeta.
  unfold bind at 1. unfold write at 1.
  simpl now. rewrite Hw. cbv iota beta.
  set (p := stem +:+ ".wav").
  set (m3 := tick (tick (with_files _ _))).
  unfold bind at 1.
  destruct (play_loop_returns (audio_players p) Hp None m3) as [res Hres].
  pose proof (play_loop_files (audio_players p) None m3) as Hfiles.
  destruct (play_loop (audio_players p) None m3) as [r4 m4].
  simpl in Hres, Hfiles. subst r4.
  unfold bind at 1. unfold unlink at 1.
  assert (Hm4 : files m4 = {[p]} ∪ files m) by (rewrite Hfiles; reflexivity).
  assert (Hin : p ∈ files m4).
  { rewrite Hm4. apply elem_of_union_l, elem_of_singleton. reflexivity. }
  rewrite (bool_decide_eq_true_2 _ Hin). fold p in Hu. rewrite Hu.
  cbv iota beta.
  assert (Hend : files (tick (with_files (files m4 ∖ {[p]}) m4)) = files m ∖ {[p]}).
  { simpl. rewrite Hm4.
    rewrite difference_union_distr_l_L, difference_diag_L.
    apply (left_id_L ∅ (∪)). }
  destruct res as [r|]; [destruct (returncode r =? 0)%Z|]; simpl; exact Hend.
Qed.

End TemporaryFile.

(** C4 at a player that is installed but may not be executed:
    [subprocess.run] raises [PermissionError], which the loop does not
    catch; [speak] returns [False] from its outer handler without reaching
    [os.unlink], and the temporary file stays on disk. *)
Theorem speak_leaves_tmp_file_on_other_error :
  let C := Examples.system ["af_bella"] true
             Examples.NotExecutable Examples.Missing Examples.Missing in
  let after := speak "hello" init_machine in
  files init_machine = ∅
  /\ fst after = inr false
  /\ spawned (snd after) = [(["pw-play"; "/tmp/tmp1.wav"], 10%Z)]
  /\ "/tmp/tmp1.wav" ∈ files (snd after).
Proof.
  cbv zeta.
  split; [reflexivity|].
  split; [vm_compute; reflexivity|].
  split; [vm_compute; reflexivity|].
  refine (bool_decide_eq_true_1 _ _). vm_compute. reflexivity.
Qed.

(* ------------------------------------------------------------------ *)
(** ** The theorems at concrete inputs *)

Module Witnesses.
Import PyStr Examples.

(** [SPEAK:hello] on a system where synthesis fails: [speak] returns
    [False] and the answer is [OK]. *)
Lemma speak_lines_answer_OK_witness :
  let C := broken in
  let raw := "SPEAK:hello" +:+ nl in
  (startswith (strip raw) "SPEAK:" = true
   \/ (strip raw <> ""
       /\ startswith (strip raw) "VOICE:" = false
       /\ startswith (strip raw) "SPEED:" = false
       /\ strip raw <> "QUIT"))
  /\ fst (speak "hello" init_machine) = inr false
  /\ fst (iteration raw init_machine) = Next
  /\ stdout (snd (iteration raw init_machine)) = stdout init_machine ++ ["OK"].
Proof.
  cbv zeta.
  assert (H : startswith (strip ("SPEAK:hello" +:+ nl)) "SPEAK:" = true
   \/ (strip ("SPEAK:hello" +:+ nl) <> ""
       /\ startswith (strip ("SPEAK:hello" +:+ nl)) "VOICE:" = false
       /\ startswith (strip ("SPEAK:hello" +:+ nl)) "SPEED:" = false
       /\ strip ("SPEAK:hello" +:+ nl) <> "QUIT"))
    by (left; reflexivity).
  split; [exact H|]. split; [vm_compute; reflexivity|].
  exact (speak_lines_answer_OK (C := broken) ("SPEAK:hello" +:+ nl) init_machine H).
Defined.

(** [VOICE:am_adam] where [am_adam] is a known voice. *)
Lemma voice_line_sets_known_voice_witness :
  let C := desktop in
  let raw := "VOICE:am_adam" +:+ nl in
  let m' := snd (iteration raw init_machine) in
  startswith (strip raw) "VOICE:" = true
  /\ "am_adam" ∈ dom kokoro_voices
  /\ voice (self m') = "am_adam"
  /\ stdout m' = stdout init_machine ++ ["OK"].
Proof.
  cbv zeta.
  assert (Hp : startswith (strip ("VOICE:am_adam" +:+ nl)) "VOICE:" = true)
    by reflexivity.
  assert (Hk : "am_adam" ∈ dom (kokoro_voices (Collaborators := desktop))).
  { refine (bool_decide_eq_true_1 _ _). vm_compute. reflexivity. }
  split; [exact Hp|]. split; [exact Hk|].
  exact (proj1 (voice_line_sets_known_voice (C := desktop)
                  ("VOICE:am_adam" +:+ nl) init_machine Hp) Hk).
Defined.

(** [SPEED:2.5] *)
Lemma speed_line_sets_parsed_speed_witness :
  let C := desktop in
  let raw := "SPEED:2.5" +:+ nl in
  let m' := snd (iteration raw init_machine) in
  startswith (strip raw) "SPEED:" = true
  /\ py_float "2.5" = inr 2.5%float
  /\ speed (self m') = 2.5%float
  /\ stdout m' = stdout init_machine ++ ["OK"].
Proof.
  cbv zeta.
  assert (Hp : startswith (strip ("SPEED:2.5" +:+ nl)) "SPEED:" = true)
    by reflexivity.
  assert (Hx : py_float (Collaborators := desktop) "2.5" = inr 2.5%float)
    by (vm_compute; reflexivity).
  split; [exact Hp|]. split; [exact Hx|].
  exact (proj1 (speed_line_sets_parsed_speed (C := desktop)
                  ("SPEED:2.5" +:+ nl) init_machine Hp) 2.5%float Hx).
Defined.

(** After [VOICE:am_adam] the machine is reachable, with a known voice. *)
Lemma session_voice_default_or_known_witness :
  let C := desktop in
  let m := snd (iteration ("VOICE:am_adam" +:+ nl) init_machine) in
  reachable m
  /\ (voice (self m) = default_voice \/ voice (self m) ∈ dom kokoro_voices).
Proof.
  cbv zeta.
  assert (Hr : reachable (C := desktop)
                 (snd (iteration ("VOICE:am_adam" +:+ nl) init_machine)))
    by (apply reach_next, reach_init).
  split; [exact Hr|].
  exact (session_voice_default_or_known (C := desktop) _ Hr).
Defined.

(** [QUIT] on the initial machine. *)
Lemma QUIT_ends_the_loop_witness :
  let C := desktop in
  let q := "QUIT" +:+ nl in
  strip q = "QUIT"
  /\ iteration q init_machine = (Break, init_machine)
  /\ forall pre post : list string,
       run (pre ++ q :: post) init_machine = run pre init_machine.
Proof.
  cbv zeta. split; [reflexivity|].
  exact (QUIT_ends_the_loop (C := desktop) ("QUIT" +:+ nl) eq_refl init_machine).
Defined.

(** A line of two spaces. *)
Lemma blank_line_is_ignored_witness :
  let C := desktop in
  let raw := "  " +:+ nl in
  let m' := snd (iteration raw init_machine) in
  strip raw = ""
  /\ stdout m' = stdout init_machine
  /\ voice (self m') = voice (self init_machine)
  /\ speed (self m') = speed (self init_machine)
  /\ running (self m') = running (self init_machine)
  /\ m' = init_machine
  /\ (raw <> "" -> fst (iteration raw init_machine) = Next).
Proof.
  cbv zeta. split; [reflexivity|].
  exact (blank_line_is_ignored (C := desktop) ("  " +:+ nl) init_machine eq_refl).
Defined.

(** [SPEAK:] followed by a space and the end of the line. *)
Lemma bare_SPEAK_speaks_empty_text_witness :
  let C := desktop in
  let ws := " " +:+ nl in
  let m' := snd (iteration ("SPEAK:" +:+ ws) init_machine) in
  all_space ws = true
  /\ fst (iteration ("SPEAK:" +:+ ws) init_machine) = Next
  /\ created m' = created init_machine
                  ++ [("", voice (self init_machine), speed (self init_machine))]
  /\ stdout m' = stdout init_machine ++ ["OK"].
Proof.
  cbv zeta. split; [reflexivity|].
  exact (bare_SPEAK_speaks_empty_text (C := desktop) (" " +:+ nl) init_machine eq_refl).
Defined.

(** A line in lower case goes to the default branch. *)
Lemma dispatch_is_case_sensitive_witness :
  let C := desktop in
  let raw := "voice:am_adam" +:+ nl in
  let m' := snd (iteration raw init_machine) in
  strip raw <> ""
  /\ startswith (strip raw) "VOICE:" = false
  /\ created m' = created init_machine ++ [("voice:am_adam", "af_bella", 1.0%float)]
  /\ stdout m' = stdout init_machine ++ ["OK"]
  /\ self m' = self init_machine.
Proof.
  cbv zeta.
  assert (Hne : strip ("voice:am_adam" +:+ nl) <> "") by discriminate.
  assert (Hq : strip ("voice:am_adam" +:+ nl) <> "QUIT") by discriminate.
  split; [exact Hne|]. split; [reflexivity|].
  exact (proj1 (dispatch_is_case_sensitive (C := desktop))
           ("voice:am_adam" +:+ nl) init_machine Hne eq_refl eq_refl eq_refl Hq).
Defined.


End Witnesses.

(* ------------------------------------------------------------------ *)
(** ** Whole runs *)

Module Scenarios.
Import PyStr Examples.

(** Three commands and [QUIT], then a line that is never read. *)
Example speak_voice_speed_quit :
  let C := desktop in
  let input := "SPEAK:Hello world" +:+ nl +:+ "VOICE:af_bella" +:+ nl
               +:+ "SPEED:1.5" +:+ nl +:+ "QUIT" +:+ nl
               +:+ "SPEAK:too late" +:+ nl in
  let m := run (readlines input) init_machine in
  stdout m = ["OK"; "OK"; "OK"]
  /\ self m = {| voice := "af_bella"; speed := 1.5%float; running := true |}
  /\ created m = [("Hello world", "af_bella", 1.0%float)]
  /\ files m = ∅.
Proof. cbv zeta. repeat split; vm_compute; reflexivity. Qed.

(** An unknown voice. *)
Example unknown_voice :
  let C := desktop in
  let m := run (readlines ("VOICE:nonexistent" +:+ nl)) init_machine in
  stdout m = ["ERROR"] /\ voice (self m) = "af_bella".
Proof. cbv zeta. split; vm_compute; reflexivity. Qed.

(** A speed that is no number, then one that is. *)
Example speeds :
  let C := desktop in
  let m := run (readlines ("SPEED:abc" +:+ nl +:+ "SPEED:2.5" +:+ nl)) init_machine in
  stdout m = ["ERROR"; "OK"] /\ speed (self m) = 2.5%float.
Proof. cbv zeta. split; vm_compute; reflexivity. Qed.

(** No player installed: [speak] returns [False] through
    [None.returncode], after the temporary file has been removed. *)
Example no_player_installed :
  let C := system ["af_bella"] true Missing Missing Missing in
  let after := speak "hello" init_machine in
  fst after = inr false
  /\ files (snd after) = ∅
  /\ length (spawned (snd after)) = 3.
Proof. cbv zeta. repeat split; vm_compute; reflexivity. Qed.

End Scenarios.


(* ------------------------------------------------------------------ *)
(** ** More on strings: trimming *)

Module PyStrTrim.
Import PyStr PyStrFacts.

Lemma rstrip_cons_nonspace (c : ascii) (s : string) :
  isspace c = false -> rstrip (String c s) = String c (rstrip s).
Proof. intros Hc. simpl. rewrite Hc. destruct (rstrip s); reflexivity. Qed.

Lemma rstrip_empty (s : string) : rstrip s = "" -> all_space s = true.
Proof.
  induction s as [|c s IH]; simpl; [reflexivity|].
  destruct (rstrip s) eqn:Hr; [|discriminate].
  destruct (isspace c); [|discriminate]. intros _. simpl. apply IH. reflexivity.
Qed.

Lemma lstrip_app_space (ws s : string) :
  all_space ws = true -> lstrip (ws +:+ s) = lstrip s.
Proof.
  induction ws as [|c ws IH]; simpl; [reflexivity|].
  intros [Hc Hws]%andb_prop. rewrite Hc. apply IH, Hws.
Qed.

Lemma rstrip_idempotent (s : string) : rstrip (rstrip s) = rstrip s.
Proof.
  induction s as [|c s IH]; simpl; [reflexivity|].
  destruct (rstrip s) as [|d r] eqn:Hr.
  - destruct (isspace c) eqn:Hc; simpl; [reflexivity|]. rewrite Hc. reflexivity.
  - change (rstrip (String c (String d r)))
      with (match rstrip (String d r) with
            | "" => if isspace c then "" else String c ""
            | r' => String c r'
            end).
    rewrite IH. reflexivity.
Qed.

(** Trimming on the left and on the right commute. *)
Lemma lstrip_rstrip (s : string) : lstrip (rstrip s) = rstrip (lstrip s).
Proof.
  induction s as [|c s IH]; [reflexivity|].
  destruct (isspace c) eqn:Hc.
  - change (lstrip (String c s)) with (if isspace c then lstrip s else String c s).
    rewrite Hc. simpl rstrip at 1.
    destruct (rstrip s) as [|d r] eqn:Hr.
    + rewrite Hc. simpl.
      rewrite (lstrip_all_space s (rstrip_empty s Hr)). reflexivity.
    + rewrite <- IH. simpl. rewrite Hc. reflexivity.
  - rewrite (rstrip_cons_nonspace c s Hc). simpl. rewrite Hc.
    symmetry. apply rstrip_cons_nonspace, Hc.
Qed.

Lemma strip_rstrip (s : string) : strip (rstrip s) = strip s.
Proof. unfold strip. rewrite lstrip_rstrip. apply rstrip_idempotent. Qed.

(** The text after a six-character prefix, as the dispatcher cuts it out
    of a line: leading whitespace before the prefix and whitespace around
    the text are gone. *)
Lemma payload (pad rest : string) (a b c d e f : ascii) :
  all_space pad = true ->
  isspace a = false -> isspace b = false -> isspace c = false ->
  isspace d = false -> isspace e = false -> isspace f = false ->
  let p t := String a (String b (String c (String d (String e (String f t))))) in
  strip (pad +:+ p rest) = p (rstrip rest)
  /\ strip (slice_from 6 (strip (pad +:+ p rest))) = strip rest.
Proof.
  intros Hpad Ha Hb Hc Hd He Hf p.
  assert (Hs : strip (pad +:+ p rest) = p (rstrip rest)).
  { unfold strip. rewrite (lstrip_app_space _ _ Hpad). subst p. cbv beta.
    change (lstrip (String a ?t)) with (if isspace a then lstrip t else String a t).
    rewrite Ha.
    rewrite !rstrip_cons_nonspace by assumption. reflexivity. }
  split; [exact Hs|]. rewrite Hs. subst p. cbv beta.
  change (slice_from 6 (String a (String b (String c (String d (String e
            (String f (rstrip rest)))))))) with (rstrip rest).
  apply strip_rstrip.
Qed.

Lemma append_empty_r (s : string) : s +:+ "" = s.
Proof.
  induction s as [|c s IH]; [reflexivity|].
  change (String c (s +:+ "") = String c s). rewrite IH. reflexivity.
Qed.

Lemma append_cons_r (s t : string) (c : ascii) :
  s +:+ String c t = (s +:+ String c "") +:+ t.
Proof.
  induction s as [|d s IH]; [reflexivity|].
  change (String d (s +:+ String c t) = String d ((s +:+ String c "") +:+ t)).
  rewrite IH. reflexivity.
Qed.

Lemma append_cons_nonempty (s : string) (c : ascii) : s +:+ String c "" <> "".
Proof. destruct s; discriminate. Qed.

(** [readline()] never returns the empty string before the end of the
    input, and the lines it returns make up the input. *)
Lemma readlines_from_spec (s : string) :
  forall (cur : string -> string) (pre : string),
    (forall t, cur t = pre +:+ t) ->
    join (readlines_from cur s) = pre +:+ s
    /\ Forall (fun l => l <> "") (readlines_from cur s).
Proof.
  induction s as [|c s IH]; intros cur pre Hcur; simpl.
  - rewrite Hcur, append_empty_r. destruct pre as [|d pre].
    + split; [reflexivity | constructor].
    + split; [simpl; rewrite append_empty_r; reflexivity|].
      constructor; [discriminate | constructor].
  - destruct (Ascii.eqb c "010") eqn:Hc.
    + destruct (IH (fun t => t) "" (fun t => eq_refl)) as [Hj Hne].
      split.
      * simpl. rewrite Hj, Hcur. simpl. symmetry. apply append_cons_r.
      * constructor; [rewrite Hcur; apply append_cons_nonempty | exact Hne].
    + rewrite (append_cons_r pre s c).
      apply (IH (fun t => cur (String c t)) (pre +:+ String c "")).
      intros t. rewrite Hcur. apply append_cons_r.
Qed.

End PyStrTrim.

(* ------------------------------------------------------------------ *)
(** ** The branches of the loop body *)

Section Passes.

Context `{C : Collaborators}.
Import PyStr PyStrFacts.

Lemma speak_and_answer_spoken text m :
  speak_and_answer text m = (inr Next, spoken text m).
Proof.
  unfold speak_and_answer, spoken, bind.
  destruct (speak_returns text m) as [b Hb].
  destruct (speak text m) as [r m1]; simpl in *; subst r. reflexivity.
Qed.

Lemma spoken_self text m : self (spoken text m) = self m.
Proof. unfold spoken. simpl. apply speak_self. Qed.

Lemma spoken_stdout text m : stdout (spoken text m) = stdout m ++ ["OK"].
Proof. unfold spoken. simpl. rewrite speak_stdout. reflexivity. Qed.

Lemma spoken_created text m :
  created (spoken text m) = created m ++ [(text, voice (self m), speed (self m))].
Proof. unfold spoken. simpl. apply speak_created. Qed.

(** Every pass through the loop body is one of the branches. *)
Lemma iteration_pass (raw : string) (m : Machine) : pass raw m (iteration raw m).
Proof.
  destruct (string_dec raw "") as [-> | Hraw]; [apply pass_eof; reflexivity|].
  destruct (string_dec (strip raw) "") as [Hline | Hline].
  { unfold iteration. rewrite (handle_empty _ Hraw Hline).
    apply pass_blank; assumption. }
  destruct (startswith (strip raw) "SPEAK:") eqn:H1.
  { unfold iteration. rewrite (handle_SPEAK _ H1), speak_and_answer_spoken.
    apply pass_SPEAK, H1. }
  destruct (startswith (strip raw) "VOICE:") eqn:H2.
  { unfold iteration. rewrite (handle_VOICE _ H2). cbv zeta.
    destruct (kokoro_voices !! strip (slice_from 6 (strip raw))) as [st|] eqn:Hv.
    - apply (pass_VOICE_known raw m st H2 Hv).
    - apply (pass_VOICE_unknown raw m H2 Hv). }
  destruct (startswith (strip raw) "SPEED:") eqn:H3.
  { unfold iteration. rewrite (handle_SPEED _ H3).
    unfold bind at 1. unfold parse_float.
    destruct (py_float (strip (slice_from 6 (strip raw)))) as [e|x] eqn:Hx.
    - apply (pass_SPEED_error raw m e H3 Hx).
    - apply (pass_SPEED_number raw m x H3 Hx). }
  destruct (string_dec (strip raw) "QUIT") as [Hq | Hq].
  { rewrite (iteration_QUIT _ _ Hq). apply pass_QUIT, Hq. }
  unfold iteration. rewrite (handle_default _ Hline H1 H2 H3 Hq), speak_and_answer_spoken.
  apply pass_default; assumption.
Qed.

#[local] Arguments spoken : simpl never.
#[local] Arguments slice_from : simpl never.

(** Case analysis on the branch taken, with the speaking branches
    rewritten by what is known of [spoken]. *)
Ltac by_pass raw m :=
  destruct (iteration_pass raw m); cbn [fst snd];
  rewrite ?spoken_stdout, ?spoken_self, ?spoken_created; simpl.

(** X1.  The loop is left in two cases only: at the end of the input and
    on a line that trims to [QUIT].  No failure of a command ends it. *)
Theorem loop_ends_only_on_QUIT_or_EOF (raw : string) (m : Machine) :
  fst (iteration raw m) = Break <-> (raw = "" \/ strip raw = "QUIT").
Proof.
  split.
  - intros Hb. destruct (iteration_pass raw m); simpl in Hb;
      first [discriminate | left; assumption | right; assumption].
  - intros [-> | Hq]; [reflexivity|]. rewrite (iteration_QUIT _ _ Hq). reflexivity.
Qed.

(** A pass prints nothing, or [OK], or [ERROR]. *)
Lemma iteration_output (raw : string) (m : Machine) :
  stdout (snd (iteration raw m)) = stdout m
  \/ stdout (snd (iteration raw m)) = stdout m ++ ["OK"]
  \/ stdout (snd (iteration raw m)) = stdout m ++ ["ERROR"].
Proof.
  by_pass raw m; auto.
Qed.

(** A pass on a line that is neither blank nor [QUIT] prints one line and
    goes on. *)
Lemma iteration_command (raw : string) (m : Machine) :
  strip raw <> "" -> strip raw <> "QUIT" ->
  fst (iteration raw m) = Next
  /\ length (stdout (snd (iteration raw m))) = S (length (stdout m)).
Proof.
  intros Hline Hq.
  by_pass raw m; rewrite ?length_app; simpl;
    first [ split; [reflexivity | lia] | exfalso; auto | idtac ].
  exfalso. apply Hline. subst raw. reflexivity.
Qed.

(** X2.  A pass changes the voice only on a [VOICE:] line and the speed
    only on a [SPEED:] line, and never the running flag. *)
Theorem only_VOICE_and_SPEED_change_session (raw : string) (m : Machine) :
  (startswith (strip raw) "VOICE:" = false ->
     voice (self (snd (iteration raw m))) = voice (self m))
  /\ (startswith (strip raw) "SPEED:" = false ->
     speed (self (snd (iteration raw m))) = speed (self m))
  /\ running (self (snd (iteration raw m))) = running (self m).
Proof.
  by_pass raw m; repeat split; intros; try reflexivity; try congruence.
Qed.

Lemma iteration_running (raw : string) (m : Machine) :
  running (self (snd (iteration raw m))) = running (self m).
Proof. by_pass raw m; reflexivity. Qed.

(** X3.  The loop never changes the running flag: it is still set when
    the loop has ended on [QUIT] or at the end of the input. *)
Theorem run_keeps_running_flag (stdin : list string) (m : Machine) :
  running (self (run stdin m)) = running (self m).
Proof.
  revert m. induction stdin as [|raw rest IH]; intros m.
  - rewrite run_nil. reflexivity.
  - simpl. destruct (running (self m)) eqn:Hr; [|exact Hr].
    pose proof (iteration_running raw m) as Hi.
    destruct (iteration raw m) as [[|] m1]; simpl in Hi.
    + rewrite IH, Hi. exact Hr.
    + rewrite Hi. exact Hr.
Qed.

(** X4.  All that the loop prints is [OK] and [ERROR], at most one line
    for each line read. *)
Theorem run_prints_OK_or_ERROR (stdin : list string) (m : Machine) :
  exists answers : list string,
    stdout (run stdin m) = stdout m ++ answers
    /\ Forall (fun a => a = "OK" \/ a = "ERROR") answers
    /\ length answers <= length stdin.
Proof.
  revert m. induction stdin as [|raw rest IH]; intros m.
  - exists []. rewrite run_nil, app_nil_r. repeat split; [constructor | simpl; lia].
  - simpl. destruct (running (self m)).
    2:{ exists []. rewrite app_nil_r. repeat split; [constructor | simpl; lia]. }
    assert (Hone : exists l, stdout (snd (iteration raw m)) = stdout m ++ l
                   /\ Forall (fun a => a = "OK" \/ a = "ERROR") l /\ length l <= 1).
    { destruct (iteration_output raw m) as [H | [H | H]].
      - exists []. rewrite app_nil_r. repeat split; [exact H | constructor | simpl; lia].
      - exists ["OK"]. repeat split; [exact H | repeat constructor | simpl; lia].
      - exists ["ERROR"]. repeat split; [exact H | | simpl; lia].
        constructor; [right; reflexivity | constructor]. }
    destruct Hone as (l & Hl & Hall & Hlen).
    destruct (iteration raw m) as [[|] m1]; simpl in Hl.
    + destruct (IH m1) as (l' & Hl' & Hall' & Hlen').
      exists (l ++ l'). rewrite Hl', Hl, app_assoc.
      repeat split; [apply Forall_app; split; assumption|].
      rewrite length_app. simpl. lia.
    + exists l. repeat split; [exact Hl | exact Hall | simpl; lia].
Qed.

(** X5.  On an input without blank lines and without [QUIT] the loop
    prints exactly one line for each line read. *)
Theorem one_answer_per_command (stdin : list string) (m : Machine) :
  running (self m) = true ->
  Forall (fun raw => strip raw <> "" /\ strip raw <> "QUIT") stdin ->
  length (stdout (run stdin m)) = length (stdout m) + length stdin.
Proof.
  intros Hr Hall. revert m Hr.
  induction Hall as [|raw rest [Hline Hq] _ IH]; intros m Hr.
  - rewrite run_nil. simpl. lia.
  - simpl. rewrite Hr.
    destruct (iteration_command raw m Hline Hq) as [Hf Hlen].
    pose proof (iteration_running raw m) as Hrun.
    destruct (iteration raw m) as [f m1]; simpl in *. subst f.
    rewrite IH by (rewrite Hrun; exact Hr). lia.
Qed.

(** A pass on a line that is not the end of the input and not [QUIT]
    goes on. *)
Lemma iteration_goes_on (raw : string) (m : Machine) :
  raw <> "" -> strip raw <> "QUIT" -> fst (iteration raw m) = Next.
Proof.
  intros Hraw Hq. by_pass raw m; first [reflexivity | contradiction].
Qed.

(** X6.  Lines are handled one after the other: on an input whose first
    part holds no [QUIT] (and no result of [readline()] at the end of the
    input), the loop on the whole input is the loop on the first part
    followed by the loop on the rest, started where the first ended. *)
Theorem run_app (first rest : list string) (m : Machine) :
  Forall (fun raw => raw <> "" /\ strip raw <> "QUIT") first ->
  run (first ++ rest) m = run rest (run first m).
Proof.
  intros Hall. revert m.
  induction Hall as [|raw first' [Hraw Hq] _ IH]; intros m.
  - rewrite run_nil. reflexivity.
  - simpl. destruct (running (self m)) eqn:Hr.
    + pose proof (iteration_goes_on raw m Hraw Hq) as Hf.
      destruct (iteration raw m) as [f m1]; simpl in Hf; subst f. apply IH.
    + destruct rest; simpl; rewrite Hr; reflexivity.
Qed.

(** X7.  A line answered with [ERROR] has changed nothing but the output:
    the session is as before, and no collaborator was called. *)
Theorem ERROR_changes_nothing (raw : string) (m : Machine) :
  stdout (snd (iteration raw m)) = stdout m ++ ["ERROR"] ->
  self (snd (iteration raw m)) = self m
  /\ files (snd (iteration raw m)) = files m
  /\ spawned (snd (iteration raw m)) = spawned m
  /\ created (snd (iteration raw m)) = created m
  /\ now (snd (iteration raw m)) = now m.
Proof.
  assert (Hnil : forall l : list string, l <> l ++ ["ERROR"]).
  { intros l H. apply (f_equal (@length string)) in H.
    rewrite length_app in H. simpl in H. lia. }
  assert (Hok : forall l : list string, l ++ ["OK"] <> l ++ ["ERROR"]).
  { intros l H. apply app_inv_head in H. discriminate. }
  by_pass raw m; intros Hout;
    first [ exfalso; exact (Hnil _ Hout) | exfalso; exact (Hok _ Hout)
          | repeat split ].
Qed.

(** X8.  Only the speaking branches call a collaborator that acts on the
    outside: a [VOICE:] line, a [SPEED:] line, [QUIT] and a blank line
    synthesize nothing, start no process and touch no file. *)
Theorem commands_call_nothing (raw : string) (m : Machine) :
  startswith (strip raw) "VOICE:" = true
  \/ startswith (strip raw) "SPEED:" = true
  \/ strip raw = "QUIT"
  \/ strip raw = "" ->
  created (snd (iteration raw m)) = created m
  /\ spawned (snd (iteration raw m)) = spawned m
  /\ files (snd (iteration raw m)) = files m
  /\ now (snd (iteration raw m)) = now m.
Proof.
  intros Hcmd.
  destruct (iteration_pass raw m); cbn [fst snd]; simpl;
    try (repeat split; reflexivity); exfalso.
  - (* SPEAK: *)
    destruct Hcmd as [Hv | [Hs | [Hq | He]]].
    + rewrite (voice_not_speak _ Hv) in H. discriminate.
    + destruct (speed_not_speak_voice _ Hs). congruence.
    + rewrite Hq in H. discriminate.
    + rewrite He in H. discriminate.
  - (* default *)
    destruct Hcmd as [Hv | [Hs | [Hq | He]]]; congruence.
Qed.

End Passes.

(* ------------------------------------------------------------------ *)
(** ** What a command line carries *)

Section Payload.

Context `{C : Collaborators}.
Import PyStr PyStrFacts PyStrTrim.

#[local] Arguments slice_from : simpl never.

(** X9.  [SPEAK:] speaks the rest of the line without the whitespace
    around it; whitespace before the prefix does not matter. *)
Theorem SPEAK_speaks_trimmed_text (pad rest : string) (m : Machine) :
  all_space pad = true ->
  let m' := snd (iteration (pad +:+ ("SPEAK:" +:+ rest)) m) in
  created m' = created m ++ [(strip rest, voice (self m), speed (self m))]
  /\ stdout m' = stdout m ++ ["OK"].
Proof.
  intros Hpad m'. subst m'.
  destruct (payload pad rest "S" "P" "E" "A" "K" ":" Hpad
              eq_refl eq_refl eq_refl eq_refl eq_refl eq_refl) as [Hline Htext].
  change (String "S" (String "P" (String "E" (String "A" (String "K"
            (String ":" rest)))))) with ("SPEAK:" +:+ rest) in Hline, Htext.
  assert (Hp : startswith (strip (pad +:+ ("SPEAK:" +:+ rest))) "SPEAK:" = true)
    by (rewrite Hline; destruct (rstrip rest); reflexivity).
  unfold iteration.
  rewrite (handle_SPEAK _ Hp), speak_and_answer_spoken, Htext. cbn [snd].
  split; [apply spoken_created | apply spoken_stdout].
Qed.

(** X10.  [VOICE:] looks up the rest of the line without the whitespace
    around it: a known name becomes the session voice, an unknown one is
    refused with the session as it was. *)
Theorem VOICE_name_is_trimmed (pad rest : string) (m : Machine) :
  all_space pad = true ->
  let m' := snd (iteration (pad +:+ ("VOICE:" +:+ rest)) m) in
  (strip rest ∈ dom kokoro_voices ->
     voice (self m') = strip rest /\ stdout m' = stdout m ++ ["OK"])
  /\ (strip rest ∉ dom kokoro_voices ->
     self m' = self m /\ stdout m' = stdout m ++ ["ERROR"]).
Proof.
  intros Hpad m'. subst m'.
  destruct (payload pad rest "V" "O" "I" "C" "E" ":" Hpad
              eq_refl eq_refl eq_refl eq_refl eq_refl eq_refl) as [Hline Hname].
  change (String "V" (String "O" (String "I" (String "C" (String "E"
            (String ":" rest)))))) with ("VOICE:" +:+ rest) in Hline, Hname.
  assert (Hp : startswith (strip (pad +:+ ("VOICE:" +:+ rest))) "VOICE:" = true)
    by (rewrite Hline; destruct (rstrip rest); reflexivity).
  unfold iteration. rewrite (handle_VOICE _ Hp). cbv zeta. rewrite Hname.
  split; intros Hk.
  - apply elem_of_dom in Hk as [st Hst]. rewrite Hst. split; reflexivity.
  - apply not_elem_of_dom in Hk. rewrite Hk. split; reflexivity.
Qed.

Lemma run_cons_next (raw : string) (rest : list string) (m m1 : Machine) :
  running (self m) = true -> iteration raw m = (Next, m1) ->
  run (raw :: rest) m = run rest m1.
Proof. intros Hr Hi. cbn [run]. rewrite Hr, Hi. reflexivity. Qed.

(** X11.  The session carries over from line to line: after a [VOICE:]
    line with a known name and a [SPEED:] line with a number, a [SPEAK:]
    line is synthesized with that voice and that speed. *)
Theorem SPEAK_uses_voice_and_speed_set_before (r1 r2 r3 : string) (x : float)
        (m : Machine) :
  running (self m) = true ->
  startswith (strip r1) "VOICE:" = true ->
  strip (slice_from 6 (strip r1)) ∈ dom kokoro_voices ->
  startswith (strip r2) "SPEED:" = true ->
  py_float (strip (slice_from 6 (strip r2))) = inr x ->
  startswith (strip r3) "SPEAK:" = true ->
  created (run [r1; r2; r3] m)
  = created m ++ [(strip (slice_from 6 (strip r3)),
                   strip (slice_from 6 (strip r1)), x)]
  /\ stdout (run [r1; r2; r3] m) = stdout m ++ ["OK"; "OK"; "OK"].
Proof.
  intros Hr H1 [st Hst]%elem_of_dom H2 Hx H3.
  assert (E1 : iteration r1 m
               = (Next, snd (print "OK"
                   (snd (set_voice (strip (slice_from 6 (strip r1))) m))))).
  { unfold iteration. rewrite (handle_VOICE _ H1). cbv zeta. rewrite Hst.
    reflexivity. }
  set (m1 := snd (print "OK" (snd (set_voice (strip (slice_from 6 (strip r1))) m))))
    in E1.
  assert (E2 : iteration r2 m1 = (Next, snd (print "OK" (snd (set_speed x m1))))).
  { unfold iteration. rewrite (handle_SPEED _ H2).
    unfold bind at 1. unfold parse_float. rewrite Hx. reflexivity. }
  set (m2 := snd (print "OK" (snd (set_speed x m1)))) in E2.
  assert (E3 : iteration r3 m2
               = (Next, spoken (strip (slice_from 6 (strip r3))) m2)).
  { unfold iteration. rewrite (handle_SPEAK _ H3), speak_and_answer_spoken.
    reflexivity. }
  assert (Hr1 : running (self m1) = true) by exact Hr.
  assert (Hr2 : running (self m2) = true) by exact Hr.
  assert (Hr3 : running (self (spoken (strip (slice_from 6 (strip r3))) m2)) = true)
    by (rewrite spoken_self; exact Hr).
  rewrite (run_cons_next _ _ _ _ Hr E1), (run_cons_next _ _ _ _ Hr1 E2),
    (run_cons_next _ _ _ _ Hr2 E3), run_nil.
  rewrite spoken_created, spoken_stdout. subst m2 m1. simpl.
  rewrite <- !app_assoc. split; reflexivity.
Qed.

(** The lines that [readline()] returns for an input text make up that
    text, and none of them is empty: the loop meets the empty string at
    the end of the input only. *)
Lemma readlines_join (s : string) :
  join (readlines s) = s /\ Forall (fun l => l <> "") (readlines s).
Proof.
  unfold readlines.
  destruct (readlines_from_spec s (fun t => t) "" (fun t => eq_refl)) as [Hj Hne].
  split; [exact Hj | exact Hne].
Qed.

End Payload.

(* ------------------------------------------------------------------ *)
(** ** The outcomes of [speak] *)

Section SpeakOutcomes.

Context `{C : Collaborators}.

#[local] Arguments play_loop : simpl never.

(** How far [speak] gets: each of the three calls before playback either
    ends it with [False] or lets it go on. *)
Lemma speak_stages (text : string) (m : Machine) :
  match kokoro_create (now m) text (voice (self m)) (speed (self m)) with
  | inl _ =>
      speak text m
      = (inr false, tick (log_synth (text, voice (self m), speed (self m)) m))
  | inr a =>
      match tempfile_name (S (now m)) with
      | inl _ =>
          speak text m
          = (inr false,
             tick (tick (log_synth (text, voice (self m), speed (self m)) m)))
      | inr stem =>
          match sf_write (S (S (now m))) (stem +:+ ".wav") a with
          | inl _ =>
              speak text m = (inr false, at_playback text (stem +:+ ".wav") m)
          | inr _ =>
              speak text m
              = play_and_clean (stem +:+ ".wav") (at_playback text (stem +:+ ".wav") m)
          end
      end
  end.
Proof.
  destruct (kokoro_create (now m) text (voice (self m)) (speed (self m)))
    as [e|a] eqn:Ha;
    [|destruct (tempfile_name (S (now m))) as [e|stem] eqn:Hs;
      [|destruct (sf_write (S (S (now m))) (stem +:+ ".wav") a) as [e|[]] eqn:Hw]];
    unfold speak, play_and_clean, try_except, speak_body, bind, get_self,
      create, NamedTemporaryFile, write; simpl;
    rewrite Ha; simpl; rewrite ?Hs; simpl; rewrite ?Hw; reflexivity.
Qed.

Lemma at_playback_facts (text p : string) (m : Machine) :
  now (at_playback text p m) = now m + 3
  /\ spawned (at_playback text p m) = spawned m
  /\ files (at_playback text p m) = {[ p ]} ∪ files m
  /\ p ∈ files (at_playback text p m).
Proof.
  simpl. repeat split; [lia|].
  apply elem_of_union_l, elem_of_singleton. reflexivity.
Qed.

(** When every player fails, the loop calls them all and ends with a
    [result] that has no status 0. *)
Lemma play_loop_all_fail (players : list (list string * string)) :
  forall (result : option CompletedProcess) (m : Machine),
    no_success result ->
    (forall j cmd name, players !! j = Some (cmd, name) ->
       player_fails (subprocess_run (now m + j) cmd 10)) ->
    exists res m',
      play_loop players result m = (inr res, m')
      /\ no_success res
      /\ spawned m' = spawned m ++ map (fun c => (fst c, 10%Z)) players
      /\ now m' = now m + length players.
Proof.
  induction players as [|[cmd0 name0] rest IH]; intros result m Hres Hall.
  { exists result, m. simpl. rewrite app_nil_r. repeat split; [exact Hres | lia]. }
  assert (Hrest : forall result', no_success result' ->
    exists res m',
      play_loop rest result' (tick (log_spawn (cmd0, 10%Z) m)) = (inr res, m')
      /\ no_success res
      /\ spawned m' = spawned m ++ map (fun c => (fst c, 10%Z)) ((cmd0, name0) :: rest)
      /\ now m' = now m + length ((cmd0, name0) :: rest)).
  { intros result' Hres'.
    destruct (IH result' (tick (log_spawn (cmd0, 10%Z) m)) Hres')
      as (res & m' & Hrun & Hno & Hsp & Hnow).
    - intros j cmd name Hj. simpl now.
      replace (S (now m) + j) with (now m + S j) by lia.
      apply (Hall (S j) cmd name Hj).
    - exists res, m'. split; [exact Hrun|]. split; [exact Hno|]. split.
      + rewrite Hsp. simpl. rewrite <- app_assoc. reflexivity.
      + rewrite Hnow. simpl. lia. }
  pose proof (Hall 0 cmd0 name0 eq_refl) as H0. rewrite Nat.add_0_r in H0.
  unfold play_loop; fold play_loop. unfold bind at 1.
  unfold try_player, try_except, bind. rewrite run_process_spec.
  destruct H0 as [[Ho | Ho] | (r & Ho & Hr)]; rewrite Ho; simpl.
  - apply Hrest, Hres.
  - apply Hrest, Hres.
  - apply Z.eqb_neq in Hr. rewrite Hr. simpl. apply Hrest.
    simpl. apply Z.eqb_neq, Hr.
Qed.

(** When the players before the [i]-th fail and the [i]-th returns 0, the
    loop calls these [i + 1] players and ends with the result of the last. *)
Lemma play_loop_first_success (i : nat) :
  forall (players : list (list string * string))
         (result : option CompletedProcess) (m : Machine)
         (cmd : list string) (name : string) (r : CompletedProcess),
    (forall j cmd' name', j < i -> players !! j = Some (cmd', name') ->
       player_fails (subprocess_run (now m + j) cmd' 10)) ->
    players !! i = Some (cmd, name) ->
    subprocess_run (now m + i) cmd 10 = inr r ->
    returncode r = 0%Z ->
    exists m',
      play_loop players result m = (inr (Some r), m')
      /\ spawned m' = spawned m ++ map (fun c => (fst c, 10%Z)) (take (S i) players)
      /\ now m' = now m + S i.
Proof.
  induction i as [|i IH]; intros players result m cmd name r Hfail Hi Ho Hz.
  - destruct players as [|[cmd0 name0] rest]; [discriminate|].
    simpl in Hi. injection Hi as -> ->. rewrite Nat.add_0_r in Ho.
    unfold play_loop; fold play_loop. unfold bind at 1.
    unfold try_player, try_except, bind. rewrite run_process_spec, Ho.
    simpl. rewrite Hz. simpl. eexists.
    split; [reflexivity|]. split; [reflexivity|]. simpl. lia.
  - destruct players as [|[cmd0 name0] rest]; [discriminate|].
    simpl in Hi.
    assert (Hrest : forall result',
      exists m',
        play_loop rest result' (tick (log_spawn (cmd0, 10%Z) m)) = (inr (Some r), m')
        /\ spawned m'
           = spawned m ++ map (fun c => (fst c, 10%Z)) (take (S (S i)) ((cmd0, name0) :: rest))
        /\ now m' = now m + S (S i)).
    { intros result'.
      destruct (IH rest result' (tick (log_spawn (cmd0, 10%Z) m)) cmd name r)
        as (m' & Hrun & Hsp & Hnow').
      - intros j cmd' name' Hj Hl. simpl now.
        replace (S (now m) + j) with (now m + S j) by lia.
        apply (Hfail (S j) cmd' name'); [lia | exact Hl].
      - exact Hi.
      - simpl now. replace (S (now m) + i) with (now m + S i) by lia. exact Ho.
      - exact Hz.
      - exists m'. split; [exact Hrun|]. split.
        + rewrite Hsp. simpl. rewrite <- app_assoc. reflexivity.
        + rewrite Hnow'. simpl. lia. }
    pose proof (Hfail 0 cmd0 name0 ltac:(lia) eq_refl) as H0.
    rewrite Nat.add_0_r in H0.
    unfold play_loop; fold play_loop. unfold bind at 1.
    unfold try_player, try_except, bind. rewrite run_process_spec.
    destruct H0 as [[Ho0 | Ho0] | (r0 & Ho0 & Hr0)]; rewrite Ho0; simpl.
    + apply Hrest.
    + apply Hrest.
    + apply Z.eqb_neq in Hr0. rewrite Hr0. simpl. apply Hrest.
Qed.

(** Playback and cleanup, from a machine in which the file exists. *)
Lemma play_and_clean_spec (p : string) (m3 : Machine) :
  p ∈ files m3 ->
  exists (b : bool) (m' : Machine) (k : nat),
    play_and_clean p m3 = (inr b, m')
    /\ k <= 3
    /\ spawned m' = spawned m3 ++ map (fun c => (fst c, 10%Z)) (take k (audio_players p))
    /\ (b = true ->
          files m' = files m3 ∖ {[ p ]}
          /\ exists t cmd r, subprocess_run t cmd 10 = inr r /\ returncode r = 0%Z).
Proof.
  intros Hin. unfold play_and_clean, try_except, bind.
  destruct (play_loop_calls (audio_players p) None m3) as (k & Hk & _ & Hsp & _).
  pose proof (play_loop_files (audio_players p) None m3) as Hf.
  pose proof (play_loop_result (audio_players p) None m3) as Hres.
  destruct (play_loop (audio_players p) None m3) as [[e|res] m4];
    cbn [fst snd] in *.
  - exists false, m4, k. repeat split; [exact Hk | exact Hsp | discriminate | discriminate].
  - unfold unlink. rewrite <- Hf in Hin.
    rewrite (bool_decide_eq_true_2 _ Hin).
    destruct (os_unlink (now m4) p) as [e|u]; cbv iota beta.
    { exists false, (tick m4), k.
      repeat split; [exact Hk | exact Hsp | discriminate | discriminate]. }
    destruct res as [r|].
    + destruct (returncode r =? 0)%Z eqn:Hz; simpl.
      * exists true, (tick (with_files (files m4 ∖ {[p]}) m4)), k.
        repeat split; [exact Hk | exact Hsp | simpl; rewrite Hf; reflexivity |].
        destruct (Hres r eq_refl) as [[=] | (t & cmd & Hr)].
        exists t, cmd, r. split; [exact Hr | apply Z.eqb_eq, Hz].
      * exists false, (tick (with_files (files m4 ∖ {[p]}) m4)), k.
        repeat split; [exact Hk | exact Hsp | discriminate | discriminate].
    + simpl. exists false, (tick (with_files (files m4 ∖ {[p]}) m4)), k.
      repeat split; [exact Hk | exact Hsp | discriminate | discriminate].
Qed.

Lemma remove_added (p : string) (X : gset string) : ({[ p ]} ∪ X) ∖ {[ p ]} = X ∖ {[ p ]}.
Proof.
  rewrite difference_union_distr_l_L, difference_diag_L.
  apply (left_id_L ∅ (∪)).
Qed.

(** X12.  When the synthesizer raises, [speak] returns [False] at once:
    no temporary file is made and no player is started. *)
Theorem speak_when_synthesis_fails (text : string) (m : Machine) (e : exn) :
  kokoro_create (now m) text (voice (self m)) (speed (self m)) = inl e ->
  fst (speak text m) = inr false
  /\ files (snd (speak text m)) = files m
  /\ spawned (snd (speak text m)) = spawned m.
Proof.
  intros He. pose proof (speak_stages text m) as Hst.
  rewrite He in Hst. rewrite Hst. repeat split.
Qed.

(** X13.  When [sf.write] raises, [speak] returns [False] without
    starting a player, and the temporary file that was just made is still
    there: [os.unlink] is not reached. *)
Theorem speak_when_write_fails (text : string) (m : Machine)
        (a : Audio) (stem : string) (e : exn) :
  kokoro_create (now m) text (voice (self m)) (speed (self m)) = inr a ->
  tempfile_name (S (now m)) = inr stem ->
  sf_write (S (S (now m))) (stem +:+ ".wav") a = inl e ->
  fst (speak text m) = inr false
  /\ spawned (snd (speak text m)) = spawned m
  /\ files (snd (speak text m)) = {[ stem +:+ ".wav" ]} ∪ files m.
Proof.
  intros Ha Hs Hw. pose proof (speak_stages text m) as Hst.
  rewrite Ha, Hs, Hw in Hst. rewrite Hst. repeat split.
Qed.

(** X14.  When each of the three players fails (it is missing, it times
    out, or it returns a status other than 0) and [os.unlink] then removes
    the file, [speak] has called all three, in order, has removed the
    temporary file and returns [False]. *)
Theorem speak_when_every_player_fails (text : string) (m : Machine)
        (a : Audio) (stem : string) :
  kokoro_create (now m) text (voice (self m)) (speed (self m)) = inr a ->
  tempfile_name (S (now m)) = inr stem ->
  sf_write (S (S (now m))) (stem +:+ ".wav") a = inr tt ->
  (forall j cmd name,
      audio_players (stem +:+ ".wav") !! j = Some (cmd, name) ->
      player_fails (subprocess_run (now m + 3 + j) cmd 10)) ->
  os_unlink (now m + 3 + 3) (stem +:+ ".wav") = inr tt ->
  fst (speak text m) = inr false
  /\ spawned (snd (speak text m))
     = spawned m ++ [ (["pw-play"; stem +:+ ".wav"], 10%Z);
                      (["paplay"; stem +:+ ".wav"], 10%Z);
                      (["aplay"; "-q"; stem +:+ ".wav"], 10%Z) ]
  /\ files (snd (speak text m)) = files m ∖ {[ stem +:+ ".wav" ]}.
Proof.
  intros Ha Hs Hw Hall Hu. pose proof (speak_stages text m) as Hst.
  rewrite Ha, Hs, Hw in Hst. rewrite Hst. clear Hst.
  set (p := stem +:+ ".wav") in *. set (m3 := at_playback text p m).
  destruct (at_playback_facts text p m) as (Hnow & Hsp3 & Hf3 & Hin).
  fold m3 in Hnow, Hsp3, Hf3, Hin.
  destruct (play_loop_all_fail (audio_players p) None m3 I)
    as (res & m4 & Hrun & Hno & Hsp & Hnow4).
  { intros j cmd name Hj. rewrite Hnow. apply (Hall j cmd name Hj). }
  pose proof (play_loop_files (audio_players p) None m3) as Hf.
  rewrite Hrun in Hf. cbn [snd] in Hf.
  unfold play_and_clean, try_except, bind. rewrite Hrun.
  unfold unlink. rewrite <- Hf in Hin.
  rewrite (bool_decide_eq_true_2 _ Hin).
  rewrite Hnow4, Hnow. change (length (audio_players p)) with 3.
  rewrite Hu. cbv iota beta.
  assert (Hfiles : files (tick (with_files (files m4 ∖ {[p]}) m4)) = files m ∖ {[p]}).
  { simpl. rewrite Hf, Hf3. apply remove_added. }
  assert (Hspawn : spawned (tick (with_files (files m4 ∖ {[p]}) m4))
                   = spawned m ++ map (fun c => (fst c, 10%Z)) (audio_players p)).
  { simpl. rewrite Hsp, Hsp3. reflexivity. }
  destruct res as [r|]; simpl in Hno.
  - apply Z.eqb_neq in Hno. rewrite Hno. simpl.
    split; [reflexivity|]. split; [exact Hspawn | exact Hfiles].
  - simpl. split; [reflexivity|]. split; [exact Hspawn | exact Hfiles].
Qed.

(** X15.  When the players before the [i]-th fail, the [i]-th returns
    status 0 and [os.unlink] then removes the file, [speak] has called
    these [i + 1] players and no other, has removed the temporary file and
    returns [True]. *)
Theorem speak_at_first_zero_exit (text : string) (m : Machine)
        (a : Audio) (stem : string) (i : nat)
        (cmd : list string) (name : string) (r : CompletedProcess) :
  kokoro_create (now m) text (voice (self m)) (speed (self m)) = inr a ->
  tempfile_name (S (now m)) = inr stem ->
  sf_write (S (S (now m))) (stem +:+ ".wav") a = inr tt ->
  (forall j cmd' name',
      j < i -> audio_players (stem +:+ ".wav") !! j = Some (cmd', name') ->
      player_fails (subprocess_run (now m + 3 + j) cmd' 10)) ->
  audio_players (stem +:+ ".wav") !! i = Some (cmd, name) ->
  subprocess_run (now m + 3 + i) cmd 10 = inr r ->
  returncode r = 0%Z ->
  os_unlink (now m + 3 + S i) (stem +:+ ".wav") = inr tt ->
  fst (speak text m) = inr true
  /\ spawned (snd (speak text m))
     = spawned m ++ map (fun c => (fst c, 10%Z))
                        (take (S i) (audio_players (stem +:+ ".wav")))
  /\ files (snd (speak text m)) = files m ∖ {[ stem +:+ ".wav" ]}.
Proof.
  intros Ha Hs Hw Hfail Hi Ho Hz Hu. pose proof (speak_stages text m) as Hst.
  rewrite Ha, Hs, Hw in Hst. rewrite Hst. clear Hst.
  set (p := stem +:+ ".wav") in *. set (m3 := at_playback text p m).
  destruct (at_playback_facts text p m) as (Hnow & Hsp3 & Hf3 & Hin).
  fold m3 in Hnow, Hsp3, Hf3, Hin.
  destruct (play_loop_first_success i (audio_players p) None m3 cmd name r)
    as (m4 & Hrun & Hsp & Hnow4).
  { intros j cmd' name' Hj Hl. rewrite Hnow. apply (Hfail j cmd' name' Hj Hl). }
  { exact Hi. }
  { rewrite Hnow. exact Ho. }
  { exact Hz. }
  pose proof (play_loop_files (audio_players p) None m3) as Hf.
  rewrite Hrun in Hf. cbn [snd] in Hf.
  unfold play_and_clean, try_except, bind. rewrite Hrun.
  unfold unlink. rewrite <- Hf in Hin.
  rewrite (bool_decide_eq_true_2 _ Hin).
  rewrite Hnow4, Hnow, Hu. cbv iota beta.
  rewrite Hz. simpl.
  split; [reflexivity|]. split.
  - rewrite Hsp, Hsp3. reflexivity.
  - rewrite Hf, Hf3. apply remove_added.
Qed.

(** X18.  When a player has returned status 0 and [os.unlink] raises,
    [speak] returns [False] all the same: the exception reaches the outer
    handler before the status is looked at. *)
Theorem speak_when_unlink_fails (text : string) (m : Machine)
        (a : Audio) (stem : string) (i : nat)
        (cmd : list string) (name : string) (r : CompletedProcess) (e : exn) :
  kokoro_create (now m) text (voice (self m)) (speed (self m)) = inr a ->
  tempfile_name (S (now m)) = inr stem ->
  sf_write (S (S (now m))) (stem +:+ ".wav") a = inr tt ->
  (forall j cmd' name',
      j < i -> audio_players (stem +:+ ".wav") !! j = Some (cmd', name') ->
      player_fails (subprocess_run (now m + 3 + j) cmd' 10)) ->
  audio_players (stem +:+ ".wav") !! i = Some (cmd, name) ->
  subprocess_run (now m + 3 + i) cmd 10 = inr r ->
  returncode r = 0%Z ->
  os_unlink (now m + 3 + S i) (stem +:+ ".wav") = inl e ->
  fst (speak text m) = inr false
  /\ spawned (snd (speak text m))
     = spawned m ++ map (fun c => (fst c, 10%Z))
                        (take (S i) (audio_players (stem +:+ ".wav"))).
Proof.
  intros Ha Hs Hw Hfail Hi Ho Hz Hu. pose proof (speak_stages text m) as Hst.
  rewrite Ha, Hs, Hw in Hst. rewrite Hst. clear Hst.
  set (p := stem +:+ ".wav") in *. set (m3 := at_playback text p m).
  destruct (at_playback_facts text p m) as (Hnow & Hsp3 & Hf3 & Hin).
  fold m3 in Hnow, Hsp3, Hf3, Hin.
  destruct (play_loop_first_success i (audio_players p) None m3 cmd name r)
    as (m4 & Hrun & Hsp & Hnow4).
  { intros j cmd' name' Hj Hl. rewrite Hnow. apply (Hfail j cmd' name' Hj Hl). }
  { exact Hi. }
  { rewrite Hnow. exact Ho. }
  { exact Hz. }
  pose proof (play_loop_files (audio_players p) None m3) as Hf.
  rewrite Hrun in Hf. cbn [snd] in Hf.
  unfold play_and_clean, try_except, bind. rewrite Hrun.
  unfold unlink. rewrite <- Hf in Hin.
  rewrite (bool_decide_eq_true_2 _ Hin).
  rewrite Hnow4, Hnow, Hu. cbv iota beta. simpl.
  split; [reflexivity|]. rewrite Hsp, Hsp3. reflexivity.
Qed.


(** X17.  One call of [speak] starts at most three processes, each with
    a timeout of 10 seconds. *)
Theorem speak_starts_at_most_three_players (text : string) (m : Machine) :
  exists calls : list Spawn,
    spawned (snd (speak text m)) = spawned m ++ calls
    /\ length calls <= 3
    /\ Forall (fun c => snd c = 10%Z) calls.
Proof.
  pose proof (speak_stages text m) as Hst.
  assert (Hnone : forall m', spawned m' = spawned m ->
            exists calls : list Spawn,
              spawned m' = spawned m ++ calls
              /\ length calls <= 3 /\ Forall (fun c => snd c = 10%Z) calls).
  { intros m' H. exists []. rewrite app_nil_r.
    split; [exact H|]. split; [simpl; lia | constructor]. }
  destruct (kokoro_create (now m) text (voice (self m)) (speed (self m))) as [e|a];
    [rewrite Hst; apply Hnone; reflexivity|].
  destruct (tempfile_name (S (now m))) as [e|stem];
    [rewrite Hst; apply Hnone; reflexivity|].
  destruct (sf_write (S (S (now m))) (stem +:+ ".wav") a) as [e|u];
    [rewrite Hst; apply Hnone; reflexivity|].
  rewrite Hst. clear Hst Hnone.
  destruct (at_playback_facts text (stem +:+ ".wav") m) as (_ & Hsp3 & _ & Hin).
  destruct (play_and_clean_spec _ _ Hin) as (b & m' & k & -> & Hk & Hsp & _).
  cbn [snd]. rewrite Hsp, Hsp3. eexists. split; [reflexivity|]. split.
  - rewrite length_map, length_take. lia.
  - apply Forall_map, Forall_forall. intros c _. reflexivity.
Qed.

End SpeakOutcomes.

(* ------------------------------------------------------------------ *)
(** ** The further theorems at concrete inputs *)

Module MoreWitnesses.
Import PyStr Examples MoreExamples.

(** Three command lines, one of them refused. *)
Lemma one_answer_per_command_witness :
  let C := desktop in
  let stdin := ["SPEAK:hi" +:+ nl; "VOICE:nobody" +:+ nl; "SPEED:2.5" +:+ nl] in
  running (self init_machine) = true
  /\ Forall (fun raw => strip raw <> "" /\ strip raw <> "QUIT") stdin
  /\ length (stdout (run stdin init_machine))
     = length (stdout init_machine) + length stdin.
Proof.
  cbv zeta.
  assert (Hall : Forall (fun raw => strip raw <> "" /\ strip raw <> "QUIT")
                   ["SPEAK:hi" +:+ nl; "VOICE:nobody" +:+ nl; "SPEED:2.5" +:+ nl])
    by (repeat constructor; discriminate).
  split; [reflexivity|]. split; [exact Hall|].
  exact (one_answer_per_command (C := desktop) _ init_machine eq_refl Hall).
Defined.

(** A voice is set in the first part of the input and used in the rest. *)
Lemma run_app_witness :
  let C := desktop in
  let first := ["VOICE:am_adam" +:+ nl] in
  let rest := ["SPEAK:hi" +:+ nl] in
  Forall (fun raw => raw <> "" /\ strip raw <> "QUIT") first
  /\ run (first ++ rest) init_machine = run rest (run first init_machine).
Proof.
  cbv zeta.
  assert (Hall : Forall (fun raw => raw <> "" /\ strip raw <> "QUIT")
                   ["VOICE:am_adam" +:+ nl])
    by (repeat constructor; discriminate).
  split; [exact Hall|].
  exact (run_app (C := desktop) _ ["SPEAK:hi" +:+ nl] init_machine Hall).
Defined.

(** A speed that is no number. *)
Lemma ERROR_changes_nothing_witness :
  let C := desktop in
  let m' := snd (iteration ("SPEED:fast" +:+ nl) init_machine) in
  stdout m' = stdout init_machine ++ ["ERROR"]
  /\ self m' = self init_machine
  /\ files m' = files init_machine
  /\ spawned m' = spawned init_machine
  /\ created m' = created init_machine
  /\ now m' = now init_machine.
Proof.
  cbv zeta.
  assert (H : stdout (snd (iteration (C := desktop) ("SPEED:fast" +:+ nl) init_machine))
              = stdout init_machine ++ ["ERROR"]) by reflexivity.
  split; [exact H|].
  exact (ERROR_changes_nothing (C := desktop) _ init_machine H).
Defined.

(** A [VOICE:] line. *)
Lemma commands_call_nothing_witness :
  let C := desktop in
  let raw := "VOICE:am_adam" +:+ nl in
  let m' := snd (iteration raw init_machine) in
  (startswith (strip raw) "VOICE:" = true
   \/ startswith (strip raw) "SPEED:" = true
   \/ strip raw = "QUIT"
   \/ strip raw = "")
  /\ created m' = created init_machine
  /\ spawned m' = spawned init_machine
  /\ files m' = files init_machine
  /\ now m' = now init_machine.
Proof.
  cbv zeta.
  assert (H : startswith (strip ("VOICE:am_adam" +:+ nl)) "VOICE:" = true
   \/ startswith (strip ("VOICE:am_adam" +:+ nl)) "SPEED:" = true
   \/ strip ("VOICE:am_adam" +:+ nl) = "QUIT"
   \/ strip ("VOICE:am_adam" +:+ nl) = "") by (left; reflexivity).
  split; [exact H|].
  exact (commands_call_nothing (C := desktop) _ init_machine H).
Defined.

(** Whitespace before the prefix and around the text. *)
Lemma SPEAK_speaks_trimmed_text_witness :
  let C := desktop in
  let m' := snd (iteration ("  " +:+ ("SPEAK:" +:+ ("  Hello world " +:+ nl)))
                   init_machine) in
  all_space "  " = true
  /\ strip ("  Hello world " +:+ nl) = "Hello world"
  /\ created m' = created init_machine
                  ++ [("Hello world", voice (self init_machine),
                       speed (self init_machine))]
  /\ stdout m' = stdout init_machine ++ ["OK"].
Proof.
  cbv zeta. split; [reflexivity|]. split; [reflexivity|].
  exact (SPEAK_speaks_trimmed_text (C := desktop) "  " ("  Hello world " +:+ nl)
           init_machine eq_refl).
Defined.

(** A voice name with whitespace around it. *)
Lemma VOICE_name_is_trimmed_witness :
  let C := desktop in
  let m' := snd (iteration (" " +:+ ("VOICE:" +:+ (" am_adam  " +:+ nl)))
                   init_machine) in
  all_space " " = true
  /\ "am_adam" ∈ dom kokoro_voices
  /\ voice (self m') = "am_adam"
  /\ stdout m' = stdout init_machine ++ ["OK"].
Proof.
  cbv zeta.
  assert (Hk : "am_adam" ∈ dom (kokoro_voices (Collaborators := desktop))).
  { refine (bool_decide_eq_true_1 _ _). vm_compute. reflexivity. }
  split; [reflexivity|]. split; [exact Hk|].
  exact (proj1 (VOICE_name_is_trimmed (C := desktop) " " (" am_adam  " +:+ nl)
                  init_machine eq_refl) Hk).
Defined.

(** Voice, speed, then speech. *)
Lemma SPEAK_uses_voice_and_speed_set_before_witness :
  let C := desktop in
  let r1 := "VOICE:am_adam" +:+ nl in
  let r2 := "SPEED:1.5" +:+ nl in
  let r3 := "SPEAK:Hello" +:+ nl in
  running (self init_machine) = true
  /\ strip (slice_from 6 (strip r1)) ∈ dom kokoro_voices
  /\ py_float (strip (slice_from 6 (strip r2))) = inr 1.5%float
  /\ created (run [r1; r2; r3] init_machine)
     = created init_machine ++ [("Hello", "am_adam", 1.5%float)]
  /\ stdout (run [r1; r2; r3] init_machine)
     = stdout init_machine ++ ["OK"; "OK"; "OK"].
Proof.
  cbv zeta.
  assert (Hk : strip (slice_from 6 (strip ("VOICE:am_adam" +:+ nl)))
               ∈ dom (kokoro_voices (Collaborators := desktop))).
  { refine (bool_decide_eq_true_1 _ _). vm_compute. reflexivity. }
  assert (Hx : py_float (Collaborators := desktop)
                 (strip (slice_from 6 (strip ("SPEED:1.5" +:+ nl)))) = inr 1.5%float)
    by (vm_compute; reflexivity).
  split; [reflexivity|]. split; [exact Hk|]. split; [exact Hx|].
  exact (SPEAK_uses_voice_and_speed_set_before (C := desktop)
           ("VOICE:am_adam" +:+ nl) ("SPEED:1.5" +:+ nl) ("SPEAK:Hello" +:+ nl)
           1.5%float init_machine eq_refl eq_refl Hk eq_refl Hx eq_refl).
Defined.

(** A synthesizer that raises. *)
Lemma speak_when_synthesis_fails_witness :
  let C := broken in
  kokoro_create (now init_machine) "hello" (voice (self init_machine))
    (speed (self init_machine)) = inl (Exception "synthesis failed")
  /\ fst (speak "hello" init_machine) = inr false
  /\ files (snd (speak "hello" init_machine)) = files init_machine
  /\ spawned (snd (speak "hello" init_machine)) = spawned init_machine.
Proof.
  cbv zeta. split; [reflexivity|].
  exact (speak_when_synthesis_fails (C := broken) "hello" init_machine
           (Exception "synthesis failed") eq_refl).
Defined.

(** A disk on which the audio file cannot be written. *)
Lemma speak_when_write_fails_witness :
  let C := full_disk (Exits 0) Missing Missing in
  sf_write 2 "/tmp/tmp1.wav" tt = inl (Exception "No space left on device")
  /\ fst (speak "hello" init_machine) = inr false
  /\ spawned (snd (speak "hello" init_machine)) = spawned init_machine
  /\ files (snd (speak "hello" init_machine))
     = {[ "/tmp/tmp1" +:+ ".wav" ]} ∪ files init_machine.
Proof.
  cbv zeta. split; [reflexivity|].
  exact (speak_when_write_fails (C := full_disk (Exits 0) Missing Missing)
           "hello" init_machine tt "/tmp/tmp1"
           (Exception "No space left on device") eq_refl eq_refl eq_refl).
Defined.

(** [pw-play] returns 1, [paplay] is missing, [aplay] hangs. *)
Lemma speak_when_every_player_fails_witness :
  let C := nothing_plays in
  (forall j cmd name,
      audio_players ("/tmp/tmp1" +:+ ".wav") !! j = Some (cmd, name) ->
      player_fails (subprocess_run (now init_machine + 3 + j) cmd 10))
  /\ fst (speak "hello" init_machine) = inr false
  /\ spawned (snd (speak "hello" init_machine))
     = spawned init_machine
       ++ [ (["pw-play"; "/tmp/tmp1" +:+ ".wav"], 10%Z);
            (["paplay"; "/tmp/tmp1" +:+ ".wav"], 10%Z);
            (["aplay"; "-q"; "/tmp/tmp1" +:+ ".wav"], 10%Z) ]
  /\ files (snd (speak "hello" init_machine))
     = files init_machine ∖ {[ "/tmp/tmp1" +:+ ".wav" ]}.
Proof.
  cbv zeta.
  assert (Hall : forall j cmd name,
      audio_players ("/tmp/tmp1" +:+ ".wav") !! j = Some (cmd, name) ->
      player_fails (subprocess_run (Collaborators := nothing_plays)
                      (now init_machine + 3 + j) cmd 10)).
  { intros j cmd name Hj.
    destruct j as [|[|[|j]]]; simpl in Hj; try discriminate;
      injection Hj as <- <-.
    - right. exists {| returncode := 1; stderr := "" |}. split; [reflexivity | discriminate].
    - left. left. reflexivity.
    - left. right. reflexivity. }
  split; [exact Hall|].
  exact (speak_when_every_player_fails (C := nothing_plays) "hello" init_machine
           tt "/tmp/tmp1" eq_refl eq_refl eq_refl Hall eq_refl).
Defined.

(** [pw-play] returns 1, [paplay] returns 0: [aplay] is not called. *)
Lemma speak_at_first_zero_exit_witness :
  let C := second_player_works in
  fst (speak "hello" init_machine) = inr true
  /\ spawned (snd (speak "hello" init_machine))
     = spawned init_machine
       ++ map (fun c => (fst c, 10%Z))
              (take 2 (audio_players ("/tmp/tmp1" +:+ ".wav")))
  /\ files (snd (speak "hello" init_machine))
     = files init_machine ∖ {[ "/tmp/tmp1" +:+ ".wav" ]}.
Proof.
  cbv zeta.
  assert (Hfail : forall j cmd' name',
      j < 1 -> audio_players ("/tmp/tmp1" +:+ ".wav") !! j = Some (cmd', name') ->
      player_fails (subprocess_run (Collaborators := second_player_works)
                      (now init_machine + 3 + j) cmd' 10)).
  { intros j cmd' name' Hj Hl. assert (j = 0) as -> by lia.
    simpl in Hl. injection Hl as <- <-.
    right. exists {| returncode := 1; stderr := "" |}. split; [reflexivity | discriminate]. }
  exact (speak_at_first_zero_exit (C := second_player_works) "hello" init_machine
           tt "/tmp/tmp1" 1 ["paplay"; "/tmp/tmp1" +:+ ".wav"] "paplay"
           {| returncode := 0; stderr := "" |}
           eq_refl eq_refl eq_refl Hfail eq_refl eq_refl eq_refl eq_refl).
Defined.

(** [pw-play] is missing, [paplay] returns 0, and the file cannot be
    removed: [speak] returns [False]. *)
Lemma speak_when_unlink_fails_witness :
  let C := sticky_tmp in
  subprocess_run (now init_machine + 3 + 1) ["paplay"; "/tmp/tmp1" +:+ ".wav"] 10
  = inr {| returncode := 0; stderr := "" |}
  /\ os_unlink (now init_machine + 3 + 2) ("/tmp/tmp1" +:+ ".wav") = inl PermissionError
  /\ fst (speak "hello" init_machine) = inr false
  /\ spawned (snd (speak "hello" init_machine))
     = spawned init_machine
       ++ map (fun c => (fst c, 10%Z))
              (take 2 (audio_players ("/tmp/tmp1" +:+ ".wav"))).
Proof.
  cbv zeta.
  assert (Hfail : forall j cmd' name',
      j < 1 -> audio_players ("/tmp/tmp1" +:+ ".wav") !! j = Some (cmd', name') ->
      player_fails (subprocess_run (Collaborators := sticky_tmp)
                      (now init_machine + 3 + j) cmd' 10)).
  { intros j cmd' name' Hj Hl. assert (j = 0) as -> by lia.
    simpl in Hl. injection Hl as <- <-. left. left. reflexivity. }
  split; [reflexivity|]. split; [reflexivity|].
  exact (speak_when_unlink_fails (C := sticky_tmp) "hello" init_machine
           tt "/tmp/tmp1" 1 ["paplay"; "/tmp/tmp1" +:+ ".wav"] "paplay"
           {| returncode := 0; stderr := "" |} PermissionError
           eq_refl eq_refl eq_refl Hfail eq_refl eq_refl eq_refl eq_refl).
Defined.


End MoreWitnesses.
